(** * The Opus decoder worker: lifecycle, staging buffers and message protocol

    A shallow embedding of [src/opus-decoder-worker.js]: the class
    [OpusDecoderWorker] (constructor, [initialize], [decode], [configure],
    [reset], [destroy]), the global [decoderWorker] and the message handler
    [self.onmessage].

    The native codec (the Emscripten module [libopus.js]) is not part of the
    repository: it is an interface, [LibOpus], over which every definition
    and theorem is parametric.  [Mock] gives one concrete instance on which
    the definitions are run. *)

From Stdlib Require Import String.
From Stdlib Require Import ZArith List Bool Lia Sorted.
From Stdlib.Strings Require Import Byte.
From Stdlib Require Import DecimalString.
From Stdlib Require Import SpecFloat.
Import ListNotations.
Local Open Scope Z_scope.

(** ** JavaScript values used by the worker *)

(** A thrown value.  The worker only reads [error.message]. The text of the
    errors raised by the engine itself is engine-defined; V8's wording is
    used for them. *)
Inductive exn : Type :=
| Error (message : string)
| RangeError (message : string)
| TypeError (message : string).

Definition message (e : exn) : string :=
  match e with Error m | RangeError m | TypeError m => m end.

(** Result of evaluating a piece of code: a value, or a throw. *)
Inductive completion (A : Type) : Type :=
| Normal (a : A)
| Throw (e : exn).
Arguments Normal {A} a.
Arguments Throw {A} e.

(** [`${n}`] for an integer number [n]. *)
Definition string_of_Z (n : Z) : string := NilZero.string_of_int (Z.to_int n).

(** A pointer-valued field is [null] or a number. [!p] holds for [null]
    and for [0]. *)
Definition truthy (p : option Z) : bool :=
  match p with
  | Some z => negb (z =? 0)
  | None => false
  end.

(** [null] where a number is expected (an offset, an argument of an
    exported function) converts to 0. *)
Definition ToNumber (p : option Z) : Z :=
  match p with
  | Some z => z
  | None => 0
  end.

(** *** Numbers: IEEE 754 binary64 *)

Definition number : Type := spec_float.
Definition prec : Z := 53.
Definition emax : Z := 1024.

Definition number_of_Z (z : Z) : number := binary_normalize prec emax z 0 false.
Definition number_mul (x y : number) : number := SFmul prec emax x y.

(** [Math.round]: the closest integral number, ties towards +infinity;
    integral numbers, zeros, infinities and NaN are returned unchanged; a
    result of zero keeps the sign of the argument. *)
Definition Math_round (x : number) : number :=
  match x with
  | S754_finite s m e =>
      if 0 <=? e then x
      else
        let v := cond_Zopp s (Zpos m) in
        match (2 * v + 2 ^ (- e)) / 2 ^ (1 - e) with
        | Z0 => S754_zero s
        | r => number_of_Z r
        end
  | _ => x
  end.

(** *** ArrayBuffer and typed-array views *)

Record ArrayBuffer : Type := {
  byteLength : Z;
  cell : Z -> byte
}.

(** [new Uint8Array(buffer, byteOffset, length)] and
    [new Float32Array(buffer, byteOffset, length)] throw a RangeError when
    the offset is negative or not a multiple of the element size, or when
    the view would end after the end of the buffer. *)
Definition view_fits (elemSize : Z) (buf : ArrayBuffer) (byteOffset len : Z) : bool :=
  (0 <=? byteOffset) && (byteOffset mod elemSize =? 0) && (0 <=? len)
  && (byteOffset + len * elemSize <=? byteLength buf).

Record view : Type := { v_offset : Z; v_length : Z }.

Definition new_view (elemSize : Z) (buf : ArrayBuffer) (byteOffset len : Z)
  : completion view :=
  if view_fits elemSize buf byteOffset len
  then Normal {| v_offset := byteOffset; v_length := len |}
  else Throw (RangeError ("Invalid typed array length: " ++ string_of_Z len)%string).

(** [view.set(bytes)] on a Uint8Array view of the right length. *)
Definition set_u8 (buf : ArrayBuffer) (v : view) (data : list byte) : ArrayBuffer :=
  {| byteLength := byteLength buf;
     cell := fun a =>
       if (v_offset v <=? a) && (a <? v_offset v + Z.of_nat (length data))
       then nth (Z.to_nat (a - v_offset v)) data x00
       else cell buf a |}.

(** A float32 sample is kept as its 32-bit pattern (little-endian in the
    buffer); the copy out of the heap is bit for bit. Pattern 0 is +0.0. *)
Definition f32 : Type := Z.
Definition f32_zero : f32 := 0.

Definition byteZ (b : byte) : Z := Z.of_N (Byte.to_N b).

Definition get_f32 (buf : ArrayBuffer) (a : Z) : f32 :=
  byteZ (cell buf a) + 256 * byteZ (cell buf (a + 1))
  + 65536 * byteZ (cell buf (a + 2)) + 16777216 * byteZ (cell buf (a + 3)).

(** The elements of a Float32Array view, in order. *)
Definition read_f32 (buf : ArrayBuffer) (v : view) : list f32 :=
  map (fun i => get_f32 buf (v_offset v + 4 * Z.of_nat i))
      (seq 0 (Z.to_nat (v_length v))).

(** [new Float32Array(n)]: [n] samples, all +0.0. *)
Definition new_Float32Array (n : nat) : list f32 := repeat f32_zero n.

(** ** The native codec module

    One instance of the Emscripten module: its linear memory ([HEAPU8] and
    [HEAPF32] are views of the same buffer) and the engine's own state. *)
Record Inst (N : Type) : Type := {
  HEAP : ArrayBuffer;
  engine : N
}.
Arguments HEAP {N} i.
Arguments engine {N} i.

(** The exports the worker calls. The two per-packet and per-update
    primitives, which the worker wraps in try/catch, may throw (a trap in
    the module surfaces as an exception); allocation, creation and release
    return, as in the collaborator contract. *)
Class LibOpus (N : Type) : Type := {
  _malloc : Z -> Inst N -> Z * Inst N;
  _free : Z -> Inst N -> Inst N;
  getValue_i32 : Z -> Inst N -> Z;
  _opus_decoder_create : Z -> Z -> Z -> Inst N -> Z * Inst N;
  _opus_decode_float : Z -> Z -> Z -> Z -> Z -> Z -> Inst N -> completion Z * Inst N;
  _opus_decoder_ctl : Z -> Z -> number -> Inst N -> completion Z * Inst N;
  _opus_decoder_destroy : Z -> Inst N -> Inst N
}.

(** The log of calls into the native layer, each with the module instance
    it went to. *)
Inductive NativeCall : Type :=
| Call_malloc (module : nat) (size : Z)
| Call_free (module : nat) (ptr : Z)
| Call_opus_decoder_create (module : nat) (Fs channels errorPtr : Z)
| Call_opus_decode_float (module : nat) (st data len pcm frame_size decode_fec : Z)
| Call_opus_decoder_ctl (module : nat) (st request : Z) (value : number)
| Call_opus_decoder_destroy (module : nat) (st : Z).

Definition call_module (c : NativeCall) : nat :=
  match c with
  | Call_malloc k _ | Call_free k _ | Call_opus_decoder_create k _ _ _
  | Call_opus_decode_float k _ _ _ _ _ _ | Call_opus_decoder_ctl k _ _ _
  | Call_opus_decoder_destroy k _ => k
  end.

Definition is_decode_call (c : NativeCall) : bool :=
  match c with Call_opus_decode_float _ _ _ _ _ _ _ => true | _ => false end.
Definition is_ctl_call (c : NativeCall) : bool :=
  match c with Call_opus_decoder_ctl _ _ _ _ => true | _ => false end.
Definition is_destroy_call (c : NativeCall) : bool :=
  match c with Call_opus_decoder_destroy _ _ => true | _ => false end.
Definition is_free_call (c : NativeCall) : bool :=
  match c with Call_free _ _ => true | _ => false end.

(** ** Messages *)

Record Config : Type := { gain : option number }.

(** Inbound: [e.data], discriminated by [type]. [data] and [config] may be
    missing. *)
Inductive Command : Type :=
| init
| decode_cmd (data : option (list byte))
| configure_cmd (config : option Config)
| reset_cmd
| destroy_cmd
| other_cmd (type : string).

(** Outbound: what [self.postMessage] is given. *)
Inductive Message : Type :=
| decoder_ready
| decoder_error (error : string)
| decoded_audio (audioData : list f32) (timestamp : Z)
    (decodeTime : option Z) (samplesDecoded : option Z) (isPacketLoss : option bool)
| decode_error (error : string)
| destroyed.

(** ** The worker *)

Section Worker.
Context {N : Type} {L : LibOpus N}.

(** The object [LibOpusModule.default()] resolves to. The worker holds the
    only reference to it, so the state of the instance is kept with the
    reference; [module_id] tells one instance from another. *)
Record Module : Type := {
  module_id : nat;
  instance : Inst N
}.

(** The fields of [OpusDecoderWorker] that are assigned after the
    constructor. *)
Record OpusDecoderWorker : Type := {
  decoder : option Z;
  wasmModule : option Module;
  inputBuffer : option Z;
  outputBuffer : option Z
}.

(** The three fields that only the constructor assigns. *)
Definition maxFrameSize : Z := 5760.
Definition sampleRate : Z := 48000.
Definition channels : Z := 1.

(** [new OpusDecoderWorker()] *)
Definition constructor : OpusDecoderWorker :=
  {| decoder := None; wasmModule := None; inputBuffer := None; outputBuffer := None |}.

(** Everything the handler can read or change: the global [decoderWorker],
    the messages posted, the console, the log of native calls, the number
    of module instances made so far, the number of [initialize()] calls
    waiting at their [await], and the clock behind [performance.now()]
    (its [n]-th reading is [timer n]). *)
Record Realm : Type := {
  decoderWorker : OpusDecoderWorker;
  outbox : list Message;
  console : list string;
  native_calls : list NativeCall;
  instantiated : nat;
  suspended : nat;
  timer : nat -> Z;
  readings : nat
}.

Definition start (clock : nat -> Z) : Realm :=
  {| decoderWorker := constructor; outbox := []; console := []; native_calls := [];
     instantiated := 0; suspended := 0; timer := clock; readings := 0 |}.

Definition with_worker (f : OpusDecoderWorker -> OpusDecoderWorker) (r : Realm) : Realm :=
  {| decoderWorker := f (decoderWorker r); outbox := outbox r; console := console r;
     native_calls := native_calls r; instantiated := instantiated r;
     suspended := suspended r; timer := timer r; readings := readings r |}.

Definition set_decoder (d : option Z) (w : OpusDecoderWorker) : OpusDecoderWorker :=
  {| decoder := d; wasmModule := wasmModule w;
     inputBuffer := inputBuffer w; outputBuffer := outputBuffer w |}.
Definition set_wasmModule (m : option Module) (w : OpusDecoderWorker) : OpusDecoderWorker :=
  {| decoder := decoder w; wasmModule := m;
     inputBuffer := inputBuffer w; outputBuffer := outputBuffer w |}.
Definition set_inputBuffer (p : option Z) (w : OpusDecoderWorker) : OpusDecoderWorker :=
  {| decoder := decoder w; wasmModule := wasmModule w;
     inputBuffer := p; outputBuffer := outputBuffer w |}.
Definition set_outputBuffer (p : option Z) (w : OpusDecoderWorker) : OpusDecoderWorker :=
  {| decoder := decoder w; wasmModule := wasmModule w;
     inputBuffer := inputBuffer w; outputBuffer := p |}.

(** *** Code that runs in a realm and may throw

    A throw keeps the changes made before it. *)
Definition JS (A : Type) : Type := Realm -> completion A * Realm.

Definition ret {A} (a : A) : JS A := fun r => (Normal a, r).
Definition throw {A} (e : exn) : JS A := fun r => (Throw e, r).
Definition bind {A B} (c : JS A) (k : A -> JS B) : JS B :=
  fun r => match c r with
           | (Normal a, r') => k a r'
           | (Throw e, r') => (Throw e, r')
           end.
Definition try_catch {A} (c : JS A) (handler : exn -> JS A) : JS A :=
  fun r => match c r with
           | (Normal a, r') => (Normal a, r')
           | (Throw e, r') => handler e r'
           end.
Definition lift {A} (c : completion A) : JS A := fun r => (c, r).

Notation "x <- c ;; k" := (bind c (fun x => k))
  (at level 61, c at next level, right associativity).
Notation "c ;; k" := (bind c (fun _ => k))
  (at level 61, right associativity).

Definition this : JS OpusDecoderWorker := fun r => (Normal (decoderWorker r), r).
Definition assign (f : OpusDecoderWorker -> OpusDecoderWorker) : JS unit :=
  fun r => (Normal tt, with_worker f r).

Definition postMessage (m : Message) : JS unit :=
  fun r => (Normal tt,
    {| decoderWorker := decoderWorker r; outbox := outbox r ++ [m]; console := console r;
       native_calls := native_calls r; instantiated := instantiated r;
       suspended := suspended r; timer := timer r; readings := readings r |}).

Definition console_error (line : string) : JS unit :=
  fun r => (Normal tt,
    {| decoderWorker := decoderWorker r; outbox := outbox r; console := console r ++ [line];
       native_calls := native_calls r; instantiated := instantiated r;
       suspended := suspended r; timer := timer r; readings := readings r |}).

Definition performance_now : JS Z :=
  fun r => (Normal (timer r (readings r)),
    {| decoderWorker := decoderWorker r; outbox := outbox r; console := console r;
       native_calls := native_calls r; instantiated := instantiated r;
       suspended := suspended r; timer := timer r; readings := S (readings r) |}).

Definition null_module : exn := TypeError "Cannot read properties of null".

(** [this.wasmModule.f(args)]: the call is logged, runs on the instance
    behind [this.wasmModule] and leaves its changes there. *)
Definition call {A} (entry : nat -> NativeCall)
  (f : Inst N -> completion A * Inst N) : JS A :=
  fun r =>
    match wasmModule (decoderWorker r) with
    | None => (Throw null_module, r)
    | Some m =>
        let (res, i') := f (instance m) in
        (res,
         {| decoderWorker :=
              set_wasmModule (Some {| module_id := module_id m; instance := i' |})
                             (decoderWorker r);
            outbox := outbox r; console := console r;
            native_calls := native_calls r ++ [entry (module_id m)];
            instantiated := instantiated r; suspended := suspended r;
            timer := timer r; readings := readings r |})
    end.

Definition returns {A} (f : Inst N -> A * Inst N) : Inst N -> completion A * Inst N :=
  fun i => let (a, i') := f i in (Normal a, i').
Definition returns_void (f : Inst N -> Inst N) : Inst N -> completion unit * Inst N :=
  fun i => (Normal tt, f i).

(** [this.wasmModule.HEAPU8.buffer], [this.wasmModule.HEAPF32.buffer] *)
Definition heap_buffer : JS ArrayBuffer :=
  fun r => match wasmModule (decoderWorker r) with
           | None => (Throw null_module, r)
           | Some m => (Normal (HEAP (instance m)), r)
           end.

(** A write through a view of the module's memory. *)
Definition heap_store (buf : ArrayBuffer) : JS unit :=
  fun r => match wasmModule (decoderWorker r) with
           | None => (Throw null_module, r)
           | Some m =>
               (Normal tt,
                with_worker (set_wasmModule
                  (Some {| module_id := module_id m;
                           instance := {| HEAP := buf; engine := engine (instance m) |} |})) r)
           end.

(** [this.wasmModule.getValue(ptr, 'i32')] *)
Definition getValue (ptr : Z) : JS Z :=
  fun r => match wasmModule (decoderWorker r) with
           | None => (Throw null_module, r)
           | Some m => (Normal (getValue_i32 ptr (instance m)), r)
           end.

(** The guard shared by [decode], [configure], [reset] and [destroy]:
    [this.decoder && this.wasmModule].  The worker has no lifecycle field;
    this guard is what it takes for being ready. *)
Definition initialized (w : OpusDecoderWorker) : bool :=
  truthy (decoder w) && match wasmModule w with Some _ => true | None => false end.

(** *** [initialize]

    [initialize()] runs up to [await import('./libopus.js')] without
    touching the worker, and its caller gets a pending promise.  Nothing of
    the worker is read or written between that [await] and the one on
    [LibOpusModule.default()], so the two are one suspension: the call is
    counted in [suspended] until the loader settles. *)
Definition initialize : JS unit :=
  fun r => (Normal tt,
    {| decoderWorker := decoderWorker r; outbox := outbox r; console := console r;
       native_calls := native_calls r; instantiated := instantiated r;
       suspended := S (suspended r); timer := timer r; readings := readings r |}).

(** The instance is given the next module number. *)
Definition fresh_module (i : Inst N) : JS Module :=
  fun r => (Normal {| module_id := instantiated r; instance := i |},
    {| decoderWorker := decoderWorker r; outbox := outbox r; console := console r;
       native_calls := native_calls r; instantiated := S (instantiated r);
       suspended := suspended r; timer := timer r; readings := readings r |}).

(** The rest of [initialize()], run when the loader has settled: with a
    new instance, or with a rejection. *)
Definition initialize_resume (loaded : completion (Inst N)) : JS unit :=
  try_catch
    (i <- lift loaded ;;
     m <- fresh_module i ;;
     assign (set_wasmModule (Some m)) ;;
     errorPtr <- call (fun k => Call_malloc k 4) (returns (_malloc 4)) ;;
     d <- call (fun k => Call_opus_decoder_create k sampleRate channels errorPtr)
               (returns (_opus_decoder_create sampleRate channels errorPtr)) ;;
     assign (set_decoder (Some d)) ;;
     errorCode <- getValue errorPtr ;;
     call (fun k => Call_free k errorPtr) (returns_void (_free errorPtr)) ;;
     if negb (errorCode =? 0)
     then throw (Error ("Opus decoder creation failed: " ++ string_of_Z errorCode)%string)
     else
       ib <- call (fun k => Call_malloc k 4000) (returns (_malloc 4000)) ;;
       assign (set_inputBuffer (Some ib)) ;;
       ob <- call (fun k => Call_malloc k (maxFrameSize * 4))
                  (returns (_malloc (maxFrameSize * 4))) ;;
       assign (set_outputBuffer (Some ob)) ;;
       postMessage decoder_ready)
    (fun error => postMessage (decoder_error (message error))).

(** *** [decode] *)
Definition decode (opusData : list byte) : JS (list f32) :=
  w <- this ;;
  if negb (initialized w)
  then throw (Error "Decoder not initialized")
  else
    try_catch
      (let len := Z.of_nat (length opusData) in
       buf <- heap_buffer ;;
       inputView <- lift (new_view 1 buf (ToNumber (inputBuffer w)) len) ;;
       heap_store (set_u8 buf inputView opusData) ;;
       samplesDecoded <-
         call (fun k => Call_opus_decode_float k (ToNumber (decoder w))
                          (ToNumber (inputBuffer w)) len
                          (ToNumber (outputBuffer w)) maxFrameSize 0)
              (_opus_decode_float (ToNumber (decoder w)) (ToNumber (inputBuffer w)) len
                                  (ToNumber (outputBuffer w)) maxFrameSize 0) ;;
       if samplesDecoded <? 0
       then throw (Error ("Opus decode failed: " ++ string_of_Z samplesDecoded)%string)
       else
         out <- heap_buffer ;;
         outputView <- lift (new_view 4 out (ToNumber (outputBuffer w)) samplesDecoded) ;;
         ret (read_f32 out outputView))
      (fun error =>
         console_error ("Decode error: " ++ message error)%string ;;
         throw error).

(** *** [configure] *)
Definition OPUS_SET_GAIN_REQUEST : Z := 4034.

Definition configure (config : option Config) : JS unit :=
  w <- this ;;
  if negb (initialized w)
  then ret tt
  else
    try_catch
      (match config with
       | None => throw (TypeError "Cannot read properties of undefined (reading 'gain')")
       | Some c =>
           match gain c with
           | Some g =>
               let gainValue := Math_round (number_mul g (number_of_Z 256)) in
               call (fun k => Call_opus_decoder_ctl k (ToNumber (decoder w))
                                OPUS_SET_GAIN_REQUEST gainValue)
                    (_opus_decoder_ctl (ToNumber (decoder w))
                                       OPUS_SET_GAIN_REQUEST gainValue) ;;
               ret tt
           | None => ret tt
           end
       end)
      (fun error => console_error ("Configuration error: " ++ message error)%string).

(** The three release calls [reset] and [destroy] share. *)
Definition release (w : OpusDecoderWorker) : JS unit :=
  call (fun k => Call_opus_decoder_destroy k (ToNumber (decoder w)))
       (returns_void (_opus_decoder_destroy (ToNumber (decoder w)))) ;;
  call (fun k => Call_free k (ToNumber (inputBuffer w)))
       (returns_void (_free (ToNumber (inputBuffer w)))) ;;
  call (fun k => Call_free k (ToNumber (outputBuffer w)))
       (returns_void (_free (ToNumber (outputBuffer w)))).

(** *** [reset]: the promise of [this.initialize()] is dropped. *)
Definition reset : JS unit :=
  w <- this ;;
  if initialized w
  then release w ;; initialize
  else ret tt.

(** *** [destroy] *)
Definition destroy : JS unit :=
  w <- this ;;
  if initialized w
  then release w ;; assign (set_decoder None)
  else ret tt.

(** *** [self.onmessage] *)

(** [data && data.length > 0] *)
Definition has_payload (data : option (list byte)) : option (list byte) :=
  match data with
  | Some (b :: l) => Some (b :: l)
  | _ => None
  end.

(** One run of the handler, up to its end or to the [await] of the
    ['init'] case (after which it does nothing more). *)
Definition onmessage (c : Command) : JS unit :=
  match c with
  | init => initialize
  | decode_cmd data =>
      match has_payload data with
      | Some data =>
          try_catch
            (startTime <- performance_now ;;
             decodedAudio <- decode data ;;
             endTime <- performance_now ;;
             let decodeTime := endTime - startTime in
             timestamp <- performance_now ;;
             postMessage (decoded_audio decodedAudio timestamp (Some decodeTime)
                            (Some (Z.of_nat (length decodedAudio))) None))
            (fun error => postMessage (decode_error (message error)))
      | None =>
          let silenceBuffer := new_Float32Array 480 in
          timestamp <- performance_now ;;
          postMessage (decoded_audio silenceBuffer timestamp None None (Some true))
      end
  | configure_cmd config => configure config
  | reset_cmd => reset
  | destroy_cmd => destroy ;; postMessage destroyed
  | other_cmd _ => ret tt
  end.

(** ** The event loop

    The worker's jobs run one at a time, each to its end or to its
    [await]: the handler for the next message, or the rest of a suspended
    [initialize()] once the loader has settled with an instance or a
    rejection.  A throw that leaves a job is an unhandled rejection: the
    changes made stay and the loop goes on. *)
Inductive Job : Type :=
| Deliver (c : Command)
| Settle (loaded : completion (Inst N)).

Definition step (j : Job) (r : Realm) : option Realm :=
  match j with
  | Deliver c => Some (snd (onmessage c r))
  | Settle loaded =>
      match suspended r with
      | O => None
      | S n =>
          Some (snd (initialize_resume loaded
            {| decoderWorker := decoderWorker r; outbox := outbox r; console := console r;
               native_calls := native_calls r; instantiated := instantiated r;
               suspended := n; timer := timer r; readings := readings r |}))
      end
  end.

Fixpoint run (jobs : list Job) (r : Realm) : option Realm :=
  match jobs with
  | [] => Some r
  | j :: rest =>
      match step j r with
      | Some r' => run rest r'
      | None => None
      end
  end.

End Worker.

Arguments Module N : clear implicits.
Arguments OpusDecoderWorker N : clear implicits.
Arguments Realm N : clear implicits.
Arguments Job N : clear implicits.

(** ** A mock native layer

    A bump allocator over a 64 KiB memory; [create] writes the error code
    it is set up to report at the error pointer and returns a null handle
    when that code is not 0; [decode] returns the next scripted result
    (0 when the script is over), capped by the frame size it is given,
    and, when that is a sample count, writes as many samples, the [j]-th
    with bit pattern [j + 1];
    [ctl] traps when set up to. *)
Module Mock.

Record Engine : Type := {
  brk : Z;
  create_status : Z;
  decode_script : list Z;
  ctl_traps : bool
}.

Definition byte_of_Z (z : Z) : byte :=
  match Byte.of_N (Z.to_N (z mod 256)) with
  | Some b => b
  | None => x00
  end.

(** Store the 32-bit pattern [z] at [a], little-endian. *)
Definition poke32 (buf : ArrayBuffer) (a z : Z) : ArrayBuffer :=
  {| byteLength := byteLength buf;
     cell := fun x =>
       if (a <=? x) && (x <? a + 4)
       then byte_of_Z (z / 2 ^ (8 * (x - a)))
       else cell buf x |}.

Definition peek32 (buf : ArrayBuffer) (a : Z) : Z :=
  let u := get_f32 buf a in
  if u <? 2147483648 then u else u - 4294967296.

Definition bump (size : Z) (i : Inst Engine) : Z * Inst Engine :=
  (brk (engine i),
   {| HEAP := HEAP i;
      engine := {| brk := brk (engine i) + 8 * ((size + 7) / 8);
                   create_status := create_status (engine i);
                   decode_script := decode_script (engine i);
                   ctl_traps := ctl_traps (engine i) |} |}).

Definition create (Fs channels errorPtr : Z) (i : Inst Engine) : Z * Inst Engine :=
  let status := create_status (engine i) in
  let i' := {| HEAP := poke32 (HEAP i) errorPtr status; engine := engine i |} in
  if status =? 0 then bump 64 i' else (0, i').

Definition write_samples (buf : ArrayBuffer) (pcm n : Z) : ArrayBuffer :=
  {| byteLength := byteLength buf;
     cell := fun x =>
       if (pcm <=? x) && (x <? pcm + 4 * n)
       then byte_of_Z (((x - pcm) / 4 + 1) / 2 ^ (8 * ((x - pcm) mod 4)))
       else cell buf x |}.

Definition decode_float (st data len pcm frame_size decode_fec : Z) (i : Inst Engine)
  : completion Z * Inst Engine :=
  let n := Z.min (hd 0 (decode_script (engine i))) frame_size in
  (Normal n,
   {| HEAP := if n <? 0 then HEAP i else write_samples (HEAP i) pcm n;
      engine := {| brk := brk (engine i);
                   create_status := create_status (engine i);
                   decode_script := tl (decode_script (engine i));
                   ctl_traps := ctl_traps (engine i) |} |}).

Definition ctl (st request : Z) (value : number) (i : Inst Engine)
  : completion Z * Inst Engine :=
  if ctl_traps (engine i) then (Throw (Error "unreachable"), i) else (Normal 0, i).

#[global] Instance libopus : LibOpus Engine := {|
  _malloc := bump;
  _free := fun _ i => i;
  getValue_i32 := fun ptr i => peek32 (HEAP i) ptr;
  _opus_decoder_create := create;
  _opus_decode_float := decode_float;
  _opus_decoder_ctl := ctl;
  _opus_decoder_destroy := fun _ i => i
|}.

(** A second native layer, the same but for [create], which returns a
    handle even when it reports an error. *)
Definition create_anyway (Fs channels errorPtr : Z) (i : Inst Engine) : Z * Inst Engine :=
  bump 64 {| HEAP := poke32 (HEAP i) errorPtr (create_status (engine i));
             engine := engine i |}.

Definition stubborn : LibOpus Engine := {|
  _malloc := bump;
  _free := fun _ i => i;
  getValue_i32 := fun ptr i => peek32 (HEAP i) ptr;
  _opus_decoder_create := create_anyway;
  _opus_decode_float := decode_float;
  _opus_decoder_ctl := ctl;
  _opus_decoder_destroy := fun _ i => i
|}.

(** A new instance: zeroed memory, allocation starting at 8. *)
Definition loaded (status : Z) (script : list Z) (traps : bool) : Inst Engine :=
  {| HEAP := {| byteLength := 65536; cell := fun _ => x00 |};
     engine := {| brk := 8; create_status := status;
                  decode_script := script; ctl_traps := traps |} |}.

(** A clock that reads 10, 20, 30, ... *)
Definition clock (n : nat) : Z := 10 * (Z.of_nat n + 1).

(** The worker after ['init'] and a successful load. *)
Definition ready (script : list Z) (traps : bool) : Realm Engine :=
  match run [Deliver init; Settle (Normal (loaded 0 script traps))] (start clock) with
  | Some r => r
  | None => start clock
  end.

(** The worker after ['init'] and a load whose [create] reports [status]. *)
Definition errored (status : Z) : Realm Engine :=
  match run [Deliver init; Settle (Normal (loaded status [] false))] (start clock) with
  | Some r => r
  | None => start clock
  end.

Definition packet (n : nat) : list byte := repeat x2a n.

(** The module behind [this.wasmModule]. *)
Definition module_of (r : Realm Engine) : Module Engine :=
  match wasmModule (decoderWorker r) with
  | Some m => m
  | None => {| module_id := 0; instance := loaded 0 [] false |}
  end.

(** The realm a list of jobs leads to. *)
Definition after {L : LibOpus Engine} (jobs : list (Job Engine)) (r : Realm Engine)
  : Realm Engine :=
  match run jobs r with
  | Some r' => r'
  | None => r
  end.

(** [{ gain: 1.5 }] *)
Definition gain_1_5 : Config := {| gain := Some (S754_finite false 3 (-1)) |}.

End Mock.

(** ** What a call of [decode] and a run of [initialize] hand to the
    native layer *)

Section Native.
Context {N : Type} {L : LibOpus N}.

(** The module memory after [inputView.set(opusData)]. *)
Definition staged (w : OpusDecoderWorker N) (m : Module N) (opusData : list byte) : Inst N :=
  {| HEAP := set_u8 (HEAP (instance m))
               {| v_offset := ToNumber (inputBuffer w);
                  v_length := Z.of_nat (length opusData) |} opusData;
     engine := engine (instance m) |}.

(** The input view can be made. *)
Definition input_fits (w : OpusDecoderWorker N) (m : Module N) (opusData : list byte) : bool :=
  view_fits 1 (HEAP (instance m)) (ToNumber (inputBuffer w)) (Z.of_nat (length opusData)).

(** What [_opus_decode_float] answers to the call [decode] makes. *)
Definition native_decode (w : OpusDecoderWorker N) (m : Module N) (opusData : list byte)
  : completion Z * Inst N :=
  _opus_decode_float (ToNumber (decoder w)) (ToNumber (inputBuffer w))
    (Z.of_nat (length opusData)) (ToNumber (outputBuffer w)) maxFrameSize 0
    (staged w m opusData).

(** The entry [decode] leaves in the log. *)
Definition decode_entry (w : OpusDecoderWorker N) (m : Module N) (opusData : list byte)
  : NativeCall :=
  Call_opus_decode_float (module_id m) (ToNumber (decoder w)) (ToNumber (inputBuffer w))
    (Z.of_nat (length opusData)) (ToNumber (outputBuffer w)) maxFrameSize 0.

(** The native decode primitive never returns more samples than the frame
    size it is given. *)
Definition respects_frame_size : Prop :=
  forall st data len pcm frame_size fec i n i',
    _opus_decode_float st data len pcm frame_size fec i = (Normal n, i') ->
    n <= frame_size.

(** The calls of a successful [initialize] on a new instance, in order:
    the error pointer, the handle, the error code, and the two buffers
    with the instance they leave. *)
Record Creation : Type := {
  c_errorPtr : Z;
  c_handle : Z;
  c_errorCode : Z;
  c_inputBuffer : Z;
  c_outputBuffer : Z;
  c_created : Inst N;
  c_allocated : Inst N
}.

Definition creation (i : Inst N) : Creation :=
  let (errorPtr, i1) := _malloc 4 i in
  let (d, i2) := _opus_decoder_create sampleRate channels errorPtr i1 in
  let errorCode := getValue_i32 errorPtr i2 in
  let i3 := _free errorPtr i2 in
  let (ib, i4) := _malloc 4000 i3 in
  let (ob, i5) := _malloc (maxFrameSize * 4) i4 in
  {| c_errorPtr := errorPtr; c_handle := d; c_errorCode := errorCode;
     c_inputBuffer := ib; c_outputBuffer := ob; c_created := i3; c_allocated := i5 |}.

(** The realm after a native call logged as [entry] has left the instance
    [i'] behind [this.wasmModule]. *)
Definition called (r : Realm N) (m : Module N) (i' : Inst N) (entry : NativeCall) : Realm N :=
  {| decoderWorker :=
       set_wasmModule (Some {| module_id := module_id m; instance := i' |}) (decoderWorker r);
     outbox := outbox r; console := console r;
     native_calls := native_calls r ++ [entry];
     instantiated := instantiated r; suspended := suspended r;
     timer := timer r; readings := readings r |}.

(** Module numbers are given in order: the module behind [this.wasmModule]
    has a number below the next one. *)
Definition numbered (r : Realm N) : Prop :=
  forall m, wasmModule (decoderWorker r) = Some m -> (module_id m < instantiated r)%nat.

(** The realm after the [catch] of [decode] has logged [e]. *)
Definition caught (e : exn) (r : Realm N) : Realm N :=
  snd (console_error ("Decode error: " ++ message e)%string r).

(** ** Shapes and counts used to state what runs of the worker keep *)

Definition is_init (c : Command) : bool :=
  match c with init => true | _ => false end.

(** The two shapes of a [decoded-audio] message: silence for a lost
    packet ([isPacketLoss] set, no [decodeTime], no [samplesDecoded]), or
    decoded audio ([decodeTime] and [samplesDecoded] set, no
    [isPacketLoss]) whose [samplesDecoded] is the length of [audioData]. *)
Definition audio_shape (msg : Message) : Prop :=
  match msg with
  | decoded_audio audioData _ decodeTime samplesDecoded isPacketLoss =>
      (isPacketLoss = Some true /\ samplesDecoded = None /\ decodeTime = None /\
       audioData = new_Float32Array 480)
      \/
      (isPacketLoss = None /\ samplesDecoded = Some (Z.of_nat (length audioData)) /\
       decodeTime <> None /\ Z.of_nat (length audioData) <= 5760)
  | _ => True
  end.

(** The jobs that post: a ['decode'] message, a ['destroy'] message, a
    settled [initialize()]. *)
Definition posts (j : Job N) : nat :=
  match j with
  | Deliver (decode_cmd _) => 1
  | Deliver destroy_cmd => 1
  | Settle _ => 1
  | Deliver _ => 0
  end.

(** The entry of a call of the decode primitive with the worker's handle
    and buffers, frame size 5760 and no FEC, whatever the length. *)
Definition decodes_with (w : OpusDecoderWorker N) (m : Module N) (entry : NativeCall) : Prop :=
  exists len,
    entry = Call_opus_decode_float (module_id m) (ToNumber (decoder w))
              (ToNumber (inputBuffer w)) len (ToNumber (outputBuffer w)) 5760 0.

(** The clock is monotone, as [performance.now()] is. *)
Definition monotone (clock : nat -> Z) : Prop :=
  forall a b, (a <= b)%nat -> clock a <= clock b.

(** The [timestamp] fields of the audio messages of an outbox, in order. *)
Definition timestamps (out : list Message) : list Z :=
  flat_map (fun msg => match msg with
                       | decoded_audio _ timestamp _ _ _ => [timestamp]
                       | _ => []
                       end) out.

Definition decodeTime_of (msg : Message) : option Z :=
  match msg with
  | decoded_audio _ _ decodeTime _ _ => decodeTime
  | _ => None
  end.

(** A message posted between the readings [lo] and [hi] of the clock: its
    [timestamp] is one of those readings and its [decodeTime] the
    difference of a later and an earlier reading. *)
Definition stamped (clock : nat -> Z) (lo hi : nat) (msg : Message) : Prop :=
  match msg with
  | decoded_audio _ timestamp decodeTime _ _ =>
      (exists n, (lo <= n < hi)%nat /\ timestamp = clock n) /\
      (forall d, decodeTime = Some d ->
         exists n1 n2, (n1 <= n2)%nat /\ d = clock n2 - clock n1)
  | _ => True
  end.

End Native.

(** * Properties *)

Section Properties.
Context {N : Type} {L : LibOpus N}.

Implicit Types (r : Realm N) (w : OpusDecoderWorker N) (m : Module N).

(** ** The guard *)

Lemma initialized_true w :
  initialized w = true ->
  exists d m, decoder w = Some d /\ d <> 0 /\ wasmModule w = Some m.
Proof.
  unfold initialized, truthy.
  destruct (decoder w) as [d|]; [|discriminate].
  destruct (wasmModule w) as [m|]; [|rewrite andb_false_r; discriminate].
  intros H. exists d, m. repeat split.
  apply andb_prop in H as [H _]. apply negb_true_iff in H. lia.
Qed.

Lemma decode_uninitialized r (opusData : list byte) :
  initialized (decoderWorker r) = false ->
  decode opusData r = (Throw (Error "Decoder not initialized"), r).
Proof. intros H. unfold decode, bind, this, throw. rewrite H. reflexivity. Qed.

Lemma configure_uninitialized r (config : option Config) :
  initialized (decoderWorker r) = false ->
  configure config r = (Normal tt, r).
Proof. intros H. unfold configure, bind, this, ret. rewrite H. reflexivity. Qed.

Lemma reset_uninitialized r :
  initialized (decoderWorker r) = false -> reset r = (Normal tt, r).
Proof. intros H. unfold reset, bind, this, ret. rewrite H. reflexivity. Qed.

Lemma destroy_uninitialized r :
  initialized (decoderWorker r) = false -> destroy r = (Normal tt, r).
Proof. intros H. unfold destroy, bind, this, ret. rewrite H. reflexivity. Qed.

(** [destroy] on an initialized worker: the three release calls, then the
    handle is cleared. *)
Lemma destroy_initialized r m :
  initialized (decoderWorker r) = true ->
  wasmModule (decoderWorker r) = Some m ->
  exists r',
    destroy r = (Normal tt, r') /\
    decoder (decoderWorker r') = None /\
    outbox r' = outbox r /\
    suspended r' = suspended r /\
    native_calls r' = native_calls r ++
      [Call_opus_decoder_destroy (module_id m) (ToNumber (decoder (decoderWorker r)));
       Call_free (module_id m) (ToNumber (inputBuffer (decoderWorker r)));
       Call_free (module_id m) (ToNumber (outputBuffer (decoderWorker r)))].
Proof.
  intros Hi Hm.
  unfold destroy, release, bind, this, call, assign, returns_void.
  rewrite Hi. cbn. rewrite Hm. cbn.
  eexists. split; [reflexivity|]. cbn.
  repeat split. rewrite <- !app_assoc. reflexivity.
Qed.

(** C8 --- [destroy] is idempotent. From every state, two ['destroy']
    messages in a row are both handled without a throw and post two
    [destroyed] acknowledgments; the first makes at most one call of the
    native destroy primitive, the second makes no native call and leaves
    the worker as it is. *)
Theorem destroy_twice r :
  exists r1 r2 released,
    onmessage destroy_cmd r = (Normal tt, r1) /\
    onmessage destroy_cmd r1 = (Normal tt, r2) /\
    run [Deliver destroy_cmd; Deliver destroy_cmd] r = Some r2 /\
    outbox r2 = outbox r ++ [destroyed; destroyed] /\
    native_calls r1 = native_calls r ++ released /\
    (length (filter is_destroy_call released) <= 1)%nat /\
    native_calls r2 = native_calls r1 /\
    decoderWorker r2 = decoderWorker r1.
Proof.
  assert (second : forall r1, initialized (decoderWorker r1) = false ->
            exists r2, onmessage destroy_cmd r1 = (Normal tt, r2) /\
                       outbox r2 = outbox r1 ++ [destroyed] /\
                       native_calls r2 = native_calls r1 /\
                       decoderWorker r2 = decoderWorker r1).
  { intros r1 H. unfold onmessage, bind. rewrite (destroy_uninitialized _ H).
    eexists. split; [reflexivity|]. cbn. auto. }
  destruct (initialized (decoderWorker r)) eqn:Hi.
  - destruct (initialized_true _ Hi) as (d & m & _ & _ & Hm).
    destruct (destroy_initialized _ _ Hi Hm) as (r' & Hd & Hnull & Hout & _ & Hcalls).
    assert (H1 : onmessage destroy_cmd r = (Normal tt, snd (postMessage destroyed r'))).
    { unfold onmessage, bind. rewrite Hd. reflexivity. }
    destruct (second (snd (postMessage destroyed r'))) as (r2 & H2 & Ho2 & Hc2 & Hw2).
    { cbn. unfold initialized. rewrite Hnull. reflexivity. }
    eexists _, r2, _. split; [exact H1|]. split; [exact H2|].
    split; [cbn [run step]; rewrite H1; cbn [snd]; rewrite H2; reflexivity|].
    split; [rewrite Ho2; cbn; rewrite Hout, <- app_assoc; reflexivity|].
    split; [cbn; exact Hcalls|].
    split; [cbn; lia|]. auto.
  - destruct (second r Hi) as (r1 & H1 & Ho1 & Hc1 & Hw1).
    destruct (second r1) as (r2 & H2 & Ho2 & Hc2 & Hw2).
    { rewrite Hw1. exact Hi. }
    exists r1, r2, []. split; [exact H1|]. split; [exact H2|].
    split; [cbn [run step]; rewrite H1; cbn [snd]; rewrite H2; reflexivity|].
    split; [rewrite Ho2, Ho1, <- app_assoc; reflexivity|].
    split; [rewrite app_nil_r; exact Hc1|].
    split; [cbn; lia|]. auto.
Qed.

(** ** Packet loss *)

(** C3 --- a ['decode'] message whose payload is absent or empty makes no
    native call at all (so the native decode primitive is not invoked) and
    posts one [decoded-audio] message whose buffer has exactly 480 samples,
    each +0.0, tagged [isPacketLoss: true]. *)
Theorem packet_loss_silence r (data : option (list byte)) :
  data = None \/ data = Some [] ->
  exists r' audioData timestamp,
    onmessage (decode_cmd data) r = (Normal tt, r') /\
    outbox r' = outbox r ++ [decoded_audio audioData timestamp None None (Some true)] /\
    length audioData = 480%nat /\
    Forall (fun sample => sample = f32_zero) audioData /\
    native_calls r' = native_calls r /\
    decoderWorker r' = decoderWorker r.
Proof.
  intros H.
  assert (Hp : has_payload data = None) by (destruct H; subst; reflexivity).
  unfold onmessage. rewrite Hp.
  unfold bind, performance_now, postMessage, new_Float32Array.
  eexists _, _, _. split; [reflexivity|]. cbn [outbox native_calls decoderWorker].
  split; [reflexivity|].
  split; [apply repeat_length|].
  split; [|split; reflexivity].
  apply Forall_forall. intros x Hx. exact (repeat_spec _ _ _ Hx).
Qed.

(** ** What each job posts *)

(** [decode] on an initialized worker whose input view can be made: the
    payload is staged, the native primitive is called once, and its answer
    decides the outcome. *)
Lemma decode_initialized r m (opusData : list byte) :
  initialized (decoderWorker r) = true ->
  wasmModule (decoderWorker r) = Some m ->
  input_fits (decoderWorker r) m opusData = true ->
  decode opusData r =
    let w := decoderWorker r in
    let i' := snd (native_decode w m opusData) in
    let r1 := called r m i' (decode_entry w m opusData) in
    match fst (native_decode w m opusData) with
    | Throw e => (Throw e, caught e r1)
    | Normal n =>
        if n <? 0
        then let e := Error ("Opus decode failed: " ++ string_of_Z n)%string in
             (Throw e, caught e r1)
        else match new_view 4 (HEAP i') (ToNumber (outputBuffer w)) n with
             | Normal v => (Normal (read_f32 (HEAP i') v), r1)
             | Throw e => (Throw e, caught e r1)
             end
    end.
Proof.
  intros Hi Hm Hfit.
  unfold decode, bind, this. rewrite Hi. cbn [negb].
  unfold try_catch, heap_buffer, lift, heap_store, call. rewrite Hm.
  unfold new_view. unfold input_fits in Hfit. rewrite Hfit.
  cbn -[view_fits read_f32 set_u8 Z.ltb string_of_Z append]. rewrite Hm.
  cbn -[view_fits read_f32 set_u8 Z.ltb string_of_Z append].
  unfold native_decode, staged.
  destruct (_opus_decode_float _ _ _ _ _ _ _) as [[n|e] i'];
    cbn -[view_fits read_f32 set_u8 Z.ltb string_of_Z append]; [|reflexivity].
  destruct (n <? 0); cbn -[view_fits read_f32 set_u8 string_of_Z append]; [reflexivity|].
  destruct (view_fits 4 (HEAP i') _ n); reflexivity.
Qed.

(** [decode] when the input view cannot be made: a RangeError, nothing
    staged and no native call. *)
Lemma decode_rejected r m (opusData : list byte) :
  initialized (decoderWorker r) = true ->
  wasmModule (decoderWorker r) = Some m ->
  input_fits (decoderWorker r) m opusData = false ->
  decode opusData r =
    let e := RangeError ("Invalid typed array length: "
                         ++ string_of_Z (Z.of_nat (length opusData)))%string in
    (Throw e, caught e r).
Proof.
  intros Hi Hm Hfit.
  unfold decode, bind, this. rewrite Hi. cbn [negb].
  unfold try_catch, heap_buffer, lift. rewrite Hm.
  unfold new_view. unfold input_fits in Hfit. rewrite Hfit. reflexivity.
Qed.

Lemma decode_frame r (opusData : list byte) :
  outbox (snd (decode opusData r)) = outbox r /\
  suspended (snd (decode opusData r)) = suspended r.
Proof.
  destruct (initialized (decoderWorker r)) eqn:Hi.
  - destruct (initialized_true _ Hi) as (d & m & _ & _ & Hm).
    destruct (input_fits (decoderWorker r) m opusData) eqn:Hfit.
    + rewrite (decode_initialized _ _ _ Hi Hm Hfit). cbv zeta.
      destruct (fst (native_decode _ _ _)) as [n|e]; [|split; reflexivity].
      destruct (n <? 0); [split; reflexivity|].
      destruct (new_view _ _ _ _); split; reflexivity.
    + rewrite (decode_rejected _ _ _ Hi Hm Hfit). split; reflexivity.
  - rewrite (decode_uninitialized _ _ Hi). split; reflexivity.
Qed.

(** [configure] with a gain on an initialized worker: one call of the
    control primitive; what it answers, or throws, is dropped. *)
Lemma configure_gain r m (cfg : Config) (g : number) :
  initialized (decoderWorker r) = true ->
  wasmModule (decoderWorker r) = Some m ->
  gain cfg = Some g ->
  configure (Some cfg) r =
    let w := decoderWorker r in
    let gainValue := Math_round (number_mul g (number_of_Z 256)) in
    let answer := _opus_decoder_ctl (ToNumber (decoder w)) OPUS_SET_GAIN_REQUEST gainValue
                    (instance m) in
    let r1 := called r m (snd answer)
                (Call_opus_decoder_ctl (module_id m) (ToNumber (decoder w))
                   OPUS_SET_GAIN_REQUEST gainValue) in
    match fst answer with
    | Normal _ => (Normal tt, r1)
    | Throw e => (Normal tt, snd (console_error ("Configuration error: " ++ message e)%string r1))
    end.
Proof.
  intros Hi Hm Hg.
  unfold configure, bind, this. rewrite Hi. cbn [negb].
  unfold try_catch, call. rewrite Hg, Hm. cbv zeta.
  destruct (_opus_decoder_ctl _ _ _ _) as [[status|e] i']; reflexivity.
Qed.

Lemma configure_frame r (config : option Config) :
  fst (configure config r) = Normal tt /\
  outbox (snd (configure config r)) = outbox r /\
  suspended (snd (configure config r)) = suspended r.
Proof.
  destruct (initialized (decoderWorker r)) eqn:Hi.
  - destruct (initialized_true _ Hi) as (d & m & _ & _ & Hm).
    destruct config as [cfg|].
    + destruct (gain cfg) as [g|] eqn:Hg.
      * rewrite (configure_gain _ _ _ _ Hi Hm Hg). cbv zeta.
        destruct (fst (_opus_decoder_ctl _ _ _ _)); repeat split; reflexivity.
      * unfold configure, bind, this, try_catch, ret. rewrite Hi, Hg. repeat split; reflexivity.
    + unfold configure, bind, this, try_catch, throw. rewrite Hi. repeat split; reflexivity.
  - rewrite (configure_uninitialized _ _ Hi). repeat split; reflexivity.
Qed.

Lemma reset_frame r :
  outbox (snd (reset r)) = outbox r /\
  suspended (snd (reset r)) =
    if initialized (decoderWorker r) then S (suspended r) else suspended r.
Proof.
  destruct (initialized (decoderWorker r)) eqn:Hi.
  - destruct (initialized_true _ Hi) as (d & m & _ & _ & Hm).
    unfold reset, release, bind, this, call, returns_void, initialize.
    rewrite Hi. cbn. rewrite Hm. cbn. split; reflexivity.
  - rewrite (reset_uninitialized _ Hi). split; reflexivity.
Qed.

Lemma destroy_frame r :
  fst (destroy r) = Normal tt /\
  outbox (snd (destroy r)) = outbox r /\
  suspended (snd (destroy r)) = suspended r.
Proof.
  destruct (initialized (decoderWorker r)) eqn:Hi.
  - destruct (initialized_true _ Hi) as (d & m & _ & _ & Hm).
    destruct (destroy_initialized _ _ Hi Hm) as (r' & Hd & _ & Ho & Hs & _).
    rewrite Hd. auto.
  - rewrite (destroy_uninitialized _ Hi). auto.
Qed.

(** The rest of [initialize()] on a new instance, call by call. *)
Lemma initialize_resume_loaded r (i : Inst N) :
  initialize_resume (Normal i) r =
    let c := creation i in
    let k := instantiated r in
    let begun := [Call_malloc k 4;
                  Call_opus_decoder_create k sampleRate channels (c_errorPtr c);
                  Call_free k (c_errorPtr c)] in
    if c_errorCode c =? 0
    then (Normal tt,
          {| decoderWorker :=
               {| decoder := Some (c_handle c);
                  wasmModule := Some {| module_id := k; instance := c_allocated c |};
                  inputBuffer := Some (c_inputBuffer c);
                  outputBuffer := Some (c_outputBuffer c) |};
             outbox := outbox r ++ [decoder_ready]; console := console r;
             native_calls := native_calls r ++ begun
               ++ [Call_malloc k 4000; Call_malloc k (maxFrameSize * 4)];
             instantiated := S k; suspended := suspended r;
             timer := timer r; readings := readings r |})
    else (Normal tt,
          {| decoderWorker :=
               {| decoder := Some (c_handle c);
                  wasmModule := Some {| module_id := k; instance := c_created c |};
                  inputBuffer := inputBuffer (decoderWorker r);
                  outputBuffer := outputBuffer (decoderWorker r) |};
             outbox := outbox r ++ [decoder_error
               ("Opus decoder creation failed: " ++ string_of_Z (c_errorCode c))%string];
             console := console r;
             native_calls := native_calls r ++ begun;
             instantiated := S k; suspended := suspended r;
             timer := timer r; readings := readings r |}).
Proof.
  unfold initialize_resume, try_catch, bind, lift, fresh_module, assign, call, returns,
    returns_void, getValue, throw, postMessage, creation.
  cbn -[Z.mul Z.eqb string_of_Z append].
  destruct (_malloc 4 i) as [errorPtr i1]. cbn -[Z.mul Z.eqb string_of_Z append].
  destruct (_opus_decoder_create sampleRate channels errorPtr i1) as [d i2].
  cbn -[Z.mul Z.eqb string_of_Z append].
  destruct (_malloc 4000 (_free errorPtr i2)) as [ib i4] eqn:Hib.
  destruct (_malloc (maxFrameSize * 4) i4) as [ob i5] eqn:Hob.
  cbn -[Z.mul Z.eqb string_of_Z append].
  destruct (getValue_i32 errorPtr i2 =? 0); cbn -[Z.mul Z.eqb string_of_Z append].
  - rewrite Hib. cbn -[Z.mul Z.eqb string_of_Z append].
    rewrite Hob. cbn -[Z.mul Z.eqb string_of_Z append].
    rewrite <- !app_assoc. reflexivity.
  - rewrite <- !app_assoc. reflexivity.
Qed.

Lemma initialize_resume_rejected r (e : exn) :
  initialize_resume (Throw e) r = postMessage (decoder_error (message e)) r.
Proof. reflexivity. Qed.

(** A settled [initialize()] posts [decoder-ready] or [decoder-error],
    once. *)
Lemma initialize_resume_posts r (loaded : completion (Inst N)) :
  exists msg,
    outbox (snd (initialize_resume loaded r)) = outbox r ++ [msg] /\
    (msg = decoder_ready \/ exists error, msg = decoder_error error) /\
    suspended (snd (initialize_resume loaded r)) = suspended r.
Proof.
  destruct loaded as [i|e].
  - rewrite initialize_resume_loaded. cbv zeta.
    destruct (c_errorCode (creation i) =? 0); cbn [snd outbox suspended];
      eexists; (split; [reflexivity|]); split; eauto.
  - rewrite initialize_resume_rejected. cbn. eexists. split; [reflexivity|]. eauto.
Qed.

Lemma onmessage_decode_posts r (data : option (list byte)) :
  exists msg,
    outbox (snd (onmessage (decode_cmd data) r)) = outbox r ++ [msg] /\
    ((exists audioData timestamp decodeTime samplesDecoded isPacketLoss,
        msg = decoded_audio audioData timestamp decodeTime samplesDecoded isPacketLoss)
     \/ exists error, msg = decode_error error) /\
    suspended (snd (onmessage (decode_cmd data) r)) = suspended r.
Proof.
  unfold onmessage. destruct (has_payload data) as [opusData|].
  - unfold try_catch, bind.
    destruct (performance_now r) as [[startTime|e0] r0] eqn:H0; [|discriminate].
    assert (Ho : outbox r0 = outbox r /\ suspended r0 = suspended r).
    { injection H0 as _ <-. split; reflexivity. }
    destruct (decode_frame r0 opusData) as [Hd Hs].
    destruct (decode opusData r0) as [[decodedAudio|e] r1]; cbn [snd] in Hd, Hs.
    + cbn. rewrite Hd, Hs. destruct Ho as [-> ->].
      eexists. split; [reflexivity|]. split; [left; repeat eexists|reflexivity].
    + cbn. rewrite Hd, Hs. destruct Ho as [-> ->].
      eexists. split; [reflexivity|]. split; [right; eexists; reflexivity|reflexivity].
  - cbn. eexists. split; [reflexivity|]. split; [left; repeat eexists|reflexivity].
Qed.

(** C5 (as amended) --- what each job posts. A ['decode'] message posts
    exactly one message, [decoded-audio] or [decode-error], and a
    ['destroy'] message exactly one [destroyed], in the run of the handler.
    An ['init'] message, and a ['reset'] message received by an initialized
    worker, post nothing in the run of the handler and leave one
    [initialize()] suspended; when a suspended [initialize()] settles it
    posts exactly one message, [decoder-ready] or [decoder-error].
    A ['configure'] message, a message of an unknown type, and a ['reset']
    message received by a worker that is not initialized post nothing and
    leave nothing suspended. *)
Theorem job_acknowledgment (j : Job N) r r' :
  step j r = Some r' ->
  match j with
  | Deliver (decode_cmd _) =>
      suspended r' = suspended r /\
      exists msg, outbox r' = outbox r ++ [msg] /\
        ((exists audioData timestamp decodeTime samplesDecoded isPacketLoss,
            msg = decoded_audio audioData timestamp decodeTime samplesDecoded isPacketLoss)
         \/ exists error, msg = decode_error error)
  | Deliver destroy_cmd =>
      suspended r' = suspended r /\ outbox r' = outbox r ++ [destroyed]
  | Deliver init =>
      suspended r' = S (suspended r) /\ outbox r' = outbox r
  | Deliver reset_cmd =>
      suspended r' = (if initialized (decoderWorker r) then S (suspended r) else suspended r)
      /\ outbox r' = outbox r
  | Deliver (configure_cmd _) | Deliver (other_cmd _) =>
      suspended r' = suspended r /\ outbox r' = outbox r
  | Settle _ =>
      suspended r = S (suspended r') /\
      exists msg, outbox r' = outbox r ++ [msg] /\
        (msg = decoder_ready \/ exists error, msg = decoder_error error)
  end.
Proof.
  destruct j as [c|loaded]; cbn [step].
  - intros [= <-]. destruct c as [|data|config| | |type].
    + split; reflexivity.
    + destruct (onmessage_decode_posts r data) as (msg & Ho & Hk & Hs). eauto.
    + destruct (configure_frame r config) as (_ & Ho & Hs). auto.
    + destruct (reset_frame r) as (Ho & Hs). auto.
    + destruct (destroy_frame r) as (Hn & Ho & Hs).
      unfold onmessage, bind. destruct (destroy r) as [[[]|e] r1]; [|discriminate].
      cbn in *. rewrite Ho, Hs. auto.
    + split; reflexivity.
  - destruct (suspended r) as [|n] eqn:Hn; [discriminate|]. intros [= <-].
    match goal with |- context [initialize_resume loaded ?x] =>
      destruct (initialize_resume_posts x loaded) as (msg & Ho & Hk & Hs) end.
    rewrite Hs. split; [reflexivity|]. exists msg. auto.
Qed.

(** ** Calls on a worker that is not initialized *)

Lemma onmessage_keeps_uninitialized r (c : Command) :
  initialized (decoderWorker r) = false ->
  decoderWorker (snd (onmessage c r)) = decoderWorker r.
Proof.
  intros Hi. destruct c as [|data|config| | |type]; cbn [onmessage]; try reflexivity.
  - destruct (has_payload data) as [opusData|]; [|reflexivity].
    unfold try_catch, bind. cbn [performance_now].
    rewrite decode_uninitialized by exact Hi. reflexivity.
  - rewrite (configure_uninitialized _ _ Hi). reflexivity.
  - rewrite (reset_uninitialized _ Hi). reflexivity.
  - unfold bind. rewrite (destroy_uninitialized _ Hi). reflexivity.
Qed.

Lemma run_keeps_uninitialized (cmds : list Command) r r' :
  initialized (decoderWorker r) = false ->
  run (map Deliver cmds) r = Some r' ->
  initialized (decoderWorker r') = false.
Proof.
  revert r. induction cmds as [|c cmds IH]; intros r Hi; cbn [map run step].
  - intros [= <-]. exact Hi.
  - apply IH. rewrite onmessage_keeps_uninitialized; assumption.
Qed.

(** After an initialization attempt in which the native create primitive
    reported an error and returned a null handle, the worker is not
    initialized. *)
Lemma failed_creation_uninitialized r r' (i : Inst N) :
  c_errorCode (creation i) <> 0 ->
  c_handle (creation i) = 0 ->
  step (Settle (Normal i)) r = Some r' ->
  initialized (decoderWorker r') = false.
Proof.
  intros Hcode Hnull. cbn [step]. destruct (suspended r); [discriminate|].
  intros [= <-]. rewrite initialize_resume_loaded. cbv zeta.
  apply Z.eqb_neq in Hcode. rewrite Hcode. cbn [snd decoderWorker].
  unfold initialized. cbn [decoder]. rewrite Hnull. reflexivity.
Qed.

(** C1 (as amended) --- while the worker is not initialized (it holds no
    decoder handle, or no module), [decode] fails with ['Decoder not
    initialized'] and [configure] returns without an error; both leave the
    realm as it is, so neither makes a native call.  A ['decode'] message
    with a payload then posts that error and nothing else happens.  The
    worker is not initialized, in particular, in every state reached by any
    messages after an initialization attempt in which the native create
    primitive reported a non-zero error code and returned a null handle. *)
Theorem uninitialized_calls_are_local r :
  (initialized (decoderWorker r) = false \/
   exists r0 (i : Inst N) (cmds : list Command),
     c_errorCode (creation i) <> 0 /\ c_handle (creation i) = 0 /\
     run (Settle (Normal i) :: map Deliver cmds) r0 = Some r) ->
  initialized (decoderWorker r) = false /\
  (forall opusData, decode opusData r = (Throw (Error "Decoder not initialized"), r)) /\
  (forall config, configure config r = (Normal tt, r)) /\
  (forall b l, exists r',
     onmessage (decode_cmd (Some (b :: l))) r = (Normal tt, r') /\
     outbox r' = outbox r ++ [decode_error "Decoder not initialized"] /\
     native_calls r' = native_calls r /\
     decoderWorker r' = decoderWorker r).
Proof.
  intros H.
  assert (Hi : initialized (decoderWorker r) = false).
  { destruct H as [H|(r0 & i & cmds & Hcode & Hnull & Hrun)]; [exact H|].
    cbn [run] in Hrun. destruct (step (Settle (Normal i)) r0) as [r1|] eqn:H1; [|discriminate].
    eapply run_keeps_uninitialized; [|exact Hrun].
    eapply failed_creation_uninitialized; eassumption. }
  split; [exact Hi|].
  split; [intros; apply decode_uninitialized; exact Hi|].
  split; [intros; apply configure_uninitialized; exact Hi|].
  intros b l. cbn [onmessage has_payload]. unfold try_catch, bind. cbn [performance_now].
  rewrite decode_uninitialized by exact Hi.
  eexists. split; [reflexivity|]. cbn. auto.
Qed.

(** ** Configuration *)

(** [configure] by its guard --- a ['configure'] message whose update has
    a gain [g]. When the guard passes the control primitive is called
    once, with request 4034 and value [Math.round(g * 256)]; whatever it
    answers or throws, the handler ends normally, nothing is posted, and
    the handle, the buffers and the guard are as before. When the guard
    fails every ['configure'] message leaves the realm as it is.  The
    guard also passes on a handle that [reset] has released: see
    [configure_runs_during_reset]. *)
Theorem configure_best_effort r (cfg : Config) (g : number) :
  gain cfg = Some g ->
  exists r',
    onmessage (configure_cmd (Some cfg)) r = (Normal tt, r') /\
    outbox r' = outbox r /\
    suspended r' = suspended r /\
    decoder (decoderWorker r') = decoder (decoderWorker r) /\
    inputBuffer (decoderWorker r') = inputBuffer (decoderWorker r) /\
    outputBuffer (decoderWorker r') = outputBuffer (decoderWorker r) /\
    initialized (decoderWorker r') = initialized (decoderWorker r) /\
    if initialized (decoderWorker r)
    then exists m,
           wasmModule (decoderWorker r) = Some m /\
           native_calls r' = native_calls r ++
             [Call_opus_decoder_ctl (module_id m) (ToNumber (decoder (decoderWorker r)))
                4034 (Math_round (number_mul g (number_of_Z 256)))]
    else r' = r /\
         forall config, onmessage (configure_cmd config) r = (Normal tt, r).
Proof.
  intros Hg. cbn [onmessage].
  destruct (initialized (decoderWorker r)) eqn:Hi.
  - destruct (initialized_true _ Hi) as (d & m & Hd & Hnz & Hm).
    rewrite (configure_gain _ _ _ _ Hi Hm Hg). cbv zeta.
    assert (Hkeep : forall i' entry,
              initialized (decoderWorker (called r m i' entry)) = true).
    { intros. unfold initialized, called. cbn. unfold initialized in Hi.
      rewrite Hm in Hi. exact Hi. }
    destruct (_opus_decoder_ctl _ _ _ _) as [[status|e] i']; cbn [fst snd];
      eexists; (split; [reflexivity|]);
      repeat (split; [first [reflexivity | apply Hkeep]|]);
      exists m; (split; [exact Hm|reflexivity]).
  - rewrite (configure_uninitialized _ _ Hi).
    exists r. rewrite Hi. repeat split.
    intros config. apply configure_uninitialized. exact Hi.
Qed.

(** ** Decoding *)

Lemma has_payload_nonempty (opusData : list byte) :
  opusData <> [] -> has_payload (Some opusData) = Some opusData.
Proof. destruct opusData; [congruence|reflexivity]. Qed.

Lemma read_f32_length (buf : ArrayBuffer) (v : view) :
  length (read_f32 buf v) = Z.to_nat (v_length v).
Proof. unfold read_f32. rewrite length_map, length_seq. reflexivity. Qed.

(** A ['decode'] message with a payload, when the native primitive
    answers a negative code. *)
Lemma onmessage_decode_failure r m (opusData : list byte) (code : Z) (i' : Inst N) :
  initialized (decoderWorker r) = true ->
  wasmModule (decoderWorker r) = Some m ->
  opusData <> [] ->
  input_fits (decoderWorker r) m opusData = true ->
  native_decode (decoderWorker r) m opusData = (Normal code, i') ->
  code < 0 ->
  exists r',
    onmessage (decode_cmd (Some opusData)) r = (Normal tt, r') /\
    outbox r' = outbox r ++
      [decode_error ("Opus decode failed: " ++ string_of_Z code)%string] /\
    decoderWorker r' =
      set_wasmModule (Some {| module_id := module_id m; instance := i' |}) (decoderWorker r) /\
    native_calls r' = native_calls r ++ [decode_entry (decoderWorker r) m opusData] /\
    suspended r' = suspended r.
Proof.
  intros Hi Hm Hne Hfit Hnat Hneg.
  cbn [onmessage]. rewrite (has_payload_nonempty _ Hne).
  unfold try_catch, bind. cbn [performance_now].
  match goal with |- context [decode opusData ?x] => set (r0 := x) end.
  rewrite (decode_initialized r0 m opusData Hi Hm Hfit). cbv zeta.
  change (decoderWorker r0) with (decoderWorker r). rewrite Hnat. cbn [fst snd].
  apply Z.ltb_lt in Hneg. rewrite Hneg.
  eexists. split; [reflexivity|]. cbn -[string_of_Z append]. auto.
Qed.

(** A ['decode'] message with a payload, when the native primitive
    answers a sample count and the samples lie in the module's memory. *)
Lemma onmessage_decode_success r m (opusData : list byte) (n : Z) (i' : Inst N) :
  initialized (decoderWorker r) = true ->
  wasmModule (decoderWorker r) = Some m ->
  opusData <> [] ->
  input_fits (decoderWorker r) m opusData = true ->
  native_decode (decoderWorker r) m opusData = (Normal n, i') ->
  0 <= n ->
  view_fits 4 (HEAP i') (ToNumber (outputBuffer (decoderWorker r))) n = true ->
  exists r' timestamp decodeTime,
    onmessage (decode_cmd (Some opusData)) r = (Normal tt, r') /\
    outbox r' = outbox r ++
      [decoded_audio
         (read_f32 (HEAP i')
            {| v_offset := ToNumber (outputBuffer (decoderWorker r)); v_length := n |})
         timestamp (Some decodeTime) (Some n) None] /\
    decoderWorker r' =
      set_wasmModule (Some {| module_id := module_id m; instance := i' |}) (decoderWorker r) /\
    native_calls r' = native_calls r ++ [decode_entry (decoderWorker r) m opusData] /\
    suspended r' = suspended r.
Proof.
  intros Hi Hm Hne Hfit Hnat Hpos Hout.
  cbn [onmessage]. rewrite (has_payload_nonempty _ Hne).
  unfold try_catch, bind. cbn [performance_now].
  match goal with |- context [decode opusData ?x] => set (r0 := x) end.
  rewrite (decode_initialized r0 m opusData Hi Hm Hfit). cbv zeta.
  change (decoderWorker r0) with (decoderWorker r). rewrite Hnat. cbn [fst snd].
  assert (Hge : (n <? 0) = false) by (apply Z.ltb_ge; exact Hpos). rewrite Hge.
  unfold new_view. rewrite Hout.
  cbn -[read_f32 Z.sub]. rewrite read_f32_length. cbn [v_length].
  rewrite Z2Nat.id by exact Hpos.
  eexists _, _, _. split; [reflexivity|]. cbn -[read_f32 Z.sub]. auto.
Qed.

(** C4 --- a ['decode'] message received by an initialized worker, when
    the native decode primitive answers a negative code: [decode] throws
    ['Opus decode failed: <code>'], posted as [decode-error]; the handle
    and both buffer pointers are as before, the module is the same one,
    the worker is still initialized and nothing is suspended.  The next
    ['decode'] message for which the native primitive answers a sample
    count (lying in the module's memory) posts a normal [decoded-audio]
    message with those samples. *)
Theorem decode_failure_is_contained r m (opusData : list byte) (code : Z) (i' : Inst N) :
  initialized (decoderWorker r) = true ->
  wasmModule (decoderWorker r) = Some m ->
  opusData <> [] ->
  input_fits (decoderWorker r) m opusData = true ->
  native_decode (decoderWorker r) m opusData = (Normal code, i') ->
  code < 0 ->
  let failure := Error ("Opus decode failed: " ++ string_of_Z code)%string in
  let m' := {| module_id := module_id m; instance := i' |} in
  exists r1,
    fst (decode opusData r) = Throw failure /\
    onmessage (decode_cmd (Some opusData)) r = (Normal tt, r1) /\
    outbox r1 = outbox r ++ [decode_error (message failure)] /\
    decoder (decoderWorker r1) = decoder (decoderWorker r) /\
    inputBuffer (decoderWorker r1) = inputBuffer (decoderWorker r) /\
    outputBuffer (decoderWorker r1) = outputBuffer (decoderWorker r) /\
    wasmModule (decoderWorker r1) = Some m' /\
    initialized (decoderWorker r1) = true /\
    suspended r1 = suspended r /\
    forall (next : list byte) (n : Z) (i'' : Inst N),
      next <> [] ->
      input_fits (decoderWorker r1) m' next = true ->
      native_decode (decoderWorker r1) m' next = (Normal n, i'') ->
      0 <= n ->
      view_fits 4 (HEAP i'') (ToNumber (outputBuffer (decoderWorker r1))) n = true ->
      exists r2 timestamp decodeTime,
        onmessage (decode_cmd (Some next)) r1 = (Normal tt, r2) /\
        outbox r2 = outbox r1 ++
          [decoded_audio
             (read_f32 (HEAP i'')
                {| v_offset := ToNumber (outputBuffer (decoderWorker r1)); v_length := n |})
             timestamp (Some decodeTime) (Some n) None] /\
        length (read_f32 (HEAP i'')
                  {| v_offset := ToNumber (outputBuffer (decoderWorker r1)); v_length := n |})
          = Z.to_nat n.
Proof.
  intros Hi Hm Hne Hfit Hnat Hneg failure m'.
  destruct (onmessage_decode_failure _ _ _ _ _ Hi Hm Hne Hfit Hnat Hneg)
    as (r1 & Hon & Hout & Hw & Hcalls & Hsusp).
  assert (Hi1 : initialized (decoderWorker r1) = true).
  { rewrite Hw. unfold initialized in *. cbn. rewrite Hm in Hi. exact Hi. }
  assert (Hm1 : wasmModule (decoderWorker r1) = Some m') by (rewrite Hw; reflexivity).
  exists r1. split.
  { rewrite (decode_initialized _ _ _ Hi Hm Hfit). cbv zeta. rewrite Hnat. cbn [fst snd].
    apply Z.ltb_lt in Hneg. rewrite Hneg. reflexivity. }
  split; [exact Hon|]. split; [exact Hout|].
  split; [rewrite Hw; reflexivity|]. split; [rewrite Hw; reflexivity|].
  split; [rewrite Hw; reflexivity|]. split; [exact Hm1|].
  split; [exact Hi1|]. split; [exact Hsusp|].
  intros next n i'' Hne2 Hfit2 Hnat2 Hpos Hview.
  destruct (onmessage_decode_success _ _ _ _ _ Hi1 Hm1 Hne2 Hfit2 Hnat2 Hpos Hview)
    as (r2 & timestamp & decodeTime & Hon2 & Hout2 & _).
  exists r2, timestamp, decodeTime. split; [exact Hon2|]. split; [exact Hout2|].
  apply read_f32_length.
Qed.

Lemma read_f32_nth (buf : ArrayBuffer) (v : view) (k : nat) :
  (k < length (read_f32 buf v))%nat ->
  nth k (read_f32 buf v) f32_zero = get_f32 buf (v_offset v + 4 * Z.of_nat k).
Proof.
  rewrite read_f32_length. intros Hk. unfold read_f32.
  rewrite (nth_indep _ f32_zero (get_f32 buf (v_offset v + 4 * Z.of_nat 0)))
    by (rewrite length_map, length_seq; exact Hk).
  rewrite (map_nth (fun i => get_f32 buf (v_offset v + 4 * Z.of_nat i))).
  rewrite seq_nth by exact Hk. reflexivity.
Qed.

(** C6 --- when [decode] returns a result on a native layer that never
    answers more samples than the frame size it is given: the worker was
    initialized, the native primitive answered a count [samplesDecoded]
    with [0 <= samplesDecoded <= 5760], and the result is a list of its
    own (not a view of the module's memory) of exactly [samplesDecoded]
    samples, the [k]-th read at [outputBuffer + 4 * k] from the memory the
    native call left, inside the output region. *)
Theorem decode_result_is_copied r (opusData : list byte) (result : list f32) r' :
  respects_frame_size ->
  decode opusData r = (Normal result, r') ->
  exists m (samplesDecoded : Z) (i' : Inst N),
    initialized (decoderWorker r) = true /\
    wasmModule (decoderWorker r) = Some m /\
    native_decode (decoderWorker r) m opusData = (Normal samplesDecoded, i') /\
    0 <= samplesDecoded <= 5760 /\
    length result = Z.to_nat samplesDecoded /\
    (forall k, (k < length result)%nat ->
       nth k result f32_zero =
         get_f32 (HEAP i') (ToNumber (outputBuffer (decoderWorker r)) + 4 * Z.of_nat k) /\
       4 * Z.of_nat k + 4 <= 4 * maxFrameSize) /\
    wasmModule (decoderWorker r') = Some {| module_id := module_id m; instance := i' |} /\
    native_calls r' = native_calls r ++ [decode_entry (decoderWorker r) m opusData].
Proof.
  intros Hbound Hdec.
  destruct (initialized (decoderWorker r)) eqn:Hi;
    [|rewrite (decode_uninitialized _ _ Hi) in Hdec; discriminate].
  destruct (initialized_true _ Hi) as (d & m & _ & _ & Hm).
  destruct (input_fits (decoderWorker r) m opusData) eqn:Hfit;
    [|rewrite (decode_rejected _ _ _ Hi Hm Hfit) in Hdec; discriminate].
  rewrite (decode_initialized _ _ _ Hi Hm Hfit) in Hdec. cbv zeta in Hdec.
  destruct (native_decode (decoderWorker r) m opusData) as [[n|e] i'] eqn:Hnat;
    cbn [fst snd] in Hdec; [|discriminate].
  destruct (n <? 0) eqn:Hneg; [discriminate|]. apply Z.ltb_ge in Hneg.
  unfold new_view in Hdec.
  destruct (view_fits 4 (HEAP i') _ n) eqn:Hview; [|discriminate].
  injection Hdec as <- <-.
  assert (Hmax : n <= maxFrameSize) by (eapply Hbound; exact Hnat).
  unfold maxFrameSize in *.
  exists m, n, i'. split; [reflexivity|]. split; [exact Hm|]. split; [exact Hnat|].
  split; [lia|].
  split; [apply read_f32_length|].
  split; [|split; reflexivity].
  intros k Hk. split; [apply read_f32_nth; exact Hk|].
  rewrite read_f32_length in Hk. cbn [v_length] in Hk. lia.
Qed.

Lemma staged_cell w m (opusData : list byte) (k : nat) :
  (k < length opusData)%nat ->
  cell (HEAP (staged w m opusData)) (ToNumber (inputBuffer w) + Z.of_nat k)
    = nth k opusData x00.
Proof.
  intros Hk. unfold staged, set_u8. cbn [HEAP cell v_offset].
  replace (ToNumber (inputBuffer w) + Z.of_nat k - ToNumber (inputBuffer w))
    with (Z.of_nat k) by lia.
  rewrite Nat2Z.id.
  destruct (ToNumber (inputBuffer w) <=? ToNumber (inputBuffer w) + Z.of_nat k) eqn:Hlo;
    [|apply Z.leb_gt in Hlo; lia].
  destruct (ToNumber (inputBuffer w) + Z.of_nat k
            <? ToNumber (inputBuffer w) + Z.of_nat (length opusData)) eqn:Hhi;
    [reflexivity|apply Z.ltb_ge in Hhi; lia].
Qed.

(** C9 (as amended) --- [decode] on an initialized worker compares the
    payload length with nothing of its own; the 4000 bytes of the input
    buffer play no part. When the payload fits between the input pointer
    and the end of the module's memory (whatever its length, beyond 4000
    bytes too), every byte of it is stored from the input pointer on and
    the native primitive is called with the whole length.  When it does
    not fit, making the input view throws a RangeError: nothing is stored
    and the native primitive is not called. *)
Theorem decode_stages_whole_payload r m (opusData : list byte) :
  initialized (decoderWorker r) = true ->
  wasmModule (decoderWorker r) = Some m ->
  let w := decoderWorker r in
  if input_fits w m opusData
  then (forall k, (k < length opusData)%nat ->
          cell (HEAP (staged w m opusData)) (ToNumber (inputBuffer w) + Z.of_nat k)
            = nth k opusData x00) /\
       native_calls (snd (decode opusData r)) = native_calls r ++
         [Call_opus_decode_float (module_id m) (ToNumber (decoder w))
            (ToNumber (inputBuffer w)) (Z.of_nat (length opusData))
            (ToNumber (outputBuffer w)) 5760 0] /\
       wasmModule (decoderWorker (snd (decode opusData r))) =
         Some {| module_id := module_id m;
                 instance := snd (native_decode w m opusData) |}
  else exists text,
         fst (decode opusData r) = Throw (RangeError text) /\
         native_calls (snd (decode opusData r)) = native_calls r /\
         decoderWorker (snd (decode opusData r)) = decoderWorker r.
Proof.
  intros Hi Hm w.
  destruct (input_fits w m opusData) eqn:Hfit.
  - split; [intros k Hk; apply staged_cell; exact Hk|].
    rewrite (decode_initialized _ _ _ Hi Hm Hfit). cbv zeta. fold w.
    destruct (fst (native_decode w m opusData)) as [n|e]; [|split; reflexivity].
    destruct (n <? 0); [split; reflexivity|].
    destruct (new_view 4 _ _ n); split; reflexivity.
  - rewrite (decode_rejected _ _ _ Hi Hm Hfit). cbv zeta.
    eexists. split; [reflexivity|]. split; reflexivity.
Qed.

(** ** Initializing again *)

Lemma call_numbered {A} (entry : nat -> NativeCall) (f : Inst N -> completion A * Inst N) r :
  numbered r -> numbered (snd (call entry f r)).
Proof.
  unfold numbered, call. intros H m0.
  destruct (wasmModule (decoderWorker r)) as [m|] eqn:Hm;
    [|cbn; rewrite Hm; discriminate].
  destruct (f (instance m)) as [res i']. cbn. intros [= <-]. cbn. apply H. reflexivity.
Qed.

Lemma step_numbered (j : Job N) r r' :
  numbered r -> step j r = Some r' -> numbered r'.
Proof.
  intros H. destruct j as [c|loaded]; cbn [step].
  - intros [= <-]. destruct c as [|data|config| | |type]; cbn [onmessage]; try exact H.
    + destruct (has_payload data) as [opusData|]; [|exact H].
      unfold try_catch, bind. cbn [performance_now].
      match goal with |- context [decode opusData ?x] => set (r0 := x) end.
      assert (H0 : numbered r0) by exact H.
      assert (Hd : numbered (snd (decode opusData r0))).
      { destruct (initialized (decoderWorker r0)) eqn:Hi.
        - destruct (initialized_true _ Hi) as (d & m & _ & _ & Hm).
          destruct (input_fits (decoderWorker r0) m opusData) eqn:Hfit.
          + rewrite (decode_initialized _ _ _ Hi Hm Hfit). cbv zeta.
            assert (Hc : forall i' entry, numbered (called r0 m i' entry)).
            { intros i' entry m0. cbn. intros [= <-]. cbn. apply H0. exact Hm. }
            destruct (fst (native_decode _ _ _)) as [n|e]; [|apply Hc].
            destruct (n <? 0); [apply Hc|].
            destruct (new_view _ _ _ _); apply Hc.
          + rewrite (decode_rejected _ _ _ Hi Hm Hfit). exact H0.
        - rewrite (decode_uninitialized _ _ Hi). exact H0. }
      destruct (decode opusData r0) as [[a|e] r1]; exact Hd.
    + destruct (initialized (decoderWorker r)) eqn:Hi.
      * destruct (initialized_true _ Hi) as (d & m & _ & _ & Hm).
        destruct config as [cfg|].
        -- destruct (gain cfg) as [g|] eqn:Hg.
           ++ rewrite (configure_gain _ _ _ _ Hi Hm Hg). cbv zeta.
              assert (Hc : forall i' entry, numbered (called r m i' entry)).
              { intros i' entry m0. cbn. intros [= <-]. cbn. apply H. exact Hm. }
              destruct (fst (_opus_decoder_ctl _ _ _ _)); apply Hc.
           ++ unfold configure, bind, this, try_catch, ret. rewrite Hi, Hg. exact H.
        -- unfold configure, bind, this, try_catch, throw. rewrite Hi. exact H.
      * rewrite (configure_uninitialized _ _ Hi). exact H.
    + unfold reset, bind, this. destruct (initialized (decoderWorker r)); [|exact H].
      unfold release, bind.
      pose proof (call_numbered
        (fun k => Call_opus_decoder_destroy k (ToNumber (decoder (decoderWorker r))))
        (returns_void (_opus_decoder_destroy (ToNumber (decoder (decoderWorker r))))) r H) as H1.
      destruct (call _ _ r) as [[[]|e] r1]; [|exact H1]. cbn [snd] in H1.
      pose proof (call_numbered
        (fun k => Call_free k (ToNumber (inputBuffer (decoderWorker r))))
        (returns_void (_free (ToNumber (inputBuffer (decoderWorker r))))) r1 H1) as H2.
      destruct (call _ _ r1) as [[[]|e] r2]; [|exact H2]. cbn [snd] in H2.
      pose proof (call_numbered
        (fun k => Call_free k (ToNumber (outputBuffer (decoderWorker r))))
        (returns_void (_free (ToNumber (outputBuffer (decoderWorker r))))) r2 H2) as H3.
      destruct (call _ _ r2) as [[[]|e] r3]; exact H3.
    + unfold bind.
      assert (Hd : numbered (snd (destroy r))).
      { destruct (initialized (decoderWorker r)) eqn:Hi;
          [|rewrite (destroy_uninitialized _ Hi); exact H].
        destruct (initialized_true _ Hi) as (d & m & _ & _ & Hm).
        unfold destroy, release, bind, this, call, assign, returns_void.
        rewrite Hi. cbn. rewrite Hm. cbn. intros m0. cbn. intros [= <-]. cbn.
        apply H. exact Hm. }
      destruct (destroy r) as [[[]|e] r1]; exact Hd.
  - destruct (suspended r); [discriminate|]. intros [= <-].
    destruct loaded as [i|e].
    + rewrite initialize_resume_loaded. cbv zeta.
      destruct (c_errorCode (creation i) =? 0); intros m0; cbn; intros [= <-]; cbn; lia.
    + rewrite initialize_resume_rejected. exact H.
Qed.

Lemma run_numbered (jobs : list (Job N)) r r' :
  numbered r -> run jobs r = Some r' -> numbered r'.
Proof.
  revert r. induction jobs as [|j jobs IH]; intros r H; cbn [run].
  - intros [= <-]. exact H.
  - destruct (step j r) as [r1|] eqn:Hs; [|discriminate].
    apply IH. eapply step_numbered; eassumption.
Qed.

Lemma reachable_numbered (clock : nat -> Z) (jobs : list (Job N)) r :
  run jobs (start clock) = Some r -> numbered r.
Proof. apply run_numbered. intros m. discriminate. Qed.

(** C10 --- ['init'] is handled in every state, the initialized one too:
    the handler leaves the worker as it is and one [initialize()]
    suspended.  When that settles with a new instance whose create reports
    code 0, the worker's handle, module and buffer pointers are replaced
    by the new ones and [decoder-ready] is posted; the native calls made
    are the five below and no other, all to the new module, so the
    previous handle is not destroyed and the previous buffers are not
    freed: no call goes to the previous module. *)
Theorem init_again_overwrites r (i : Inst N) :
  c_errorCode (creation i) = 0 ->
  let c := creation i in
  let k := instantiated r in
  let made := [Call_malloc k 4; Call_opus_decoder_create k 48000 1 (c_errorPtr c);
               Call_free k (c_errorPtr c); Call_malloc k 4000; Call_malloc k 23040] in
  exists r1 r2,
    onmessage init r = (Normal tt, r1) /\
    decoderWorker r1 = decoderWorker r /\
    suspended r1 = S (suspended r) /\
    outbox r1 = outbox r /\
    native_calls r1 = native_calls r /\
    step (Settle (Normal i)) r1 = Some r2 /\
    decoderWorker r2 =
      {| decoder := Some (c_handle c);
         wasmModule := Some {| module_id := k; instance := c_allocated c |};
         inputBuffer := Some (c_inputBuffer c);
         outputBuffer := Some (c_outputBuffer c) |} /\
    outbox r2 = outbox r ++ [decoder_ready] /\
    native_calls r2 = native_calls r ++ made /\
    filter is_destroy_call made = [] /\
    filter is_free_call made = [Call_free k (c_errorPtr c)] /\
    (numbered r -> forall m, wasmModule (decoderWorker r) = Some m ->
       Forall (fun entry => call_module entry <> module_id m) made).
Proof.
  intros Hcode c k made. subst c k made.
  eexists _, _. split; [reflexivity|]. cbn [onmessage initialize snd].
  cbn [decoderWorker suspended outbox native_calls step].
  rewrite initialize_resume_loaded. cbv zeta. rewrite Hcode.
  cbn [Z.eqb snd decoderWorker outbox native_calls instantiated].
  repeat (split; [reflexivity|]).
  intros Hnum m Hm. specialize (Hnum m Hm).
  repeat constructor; cbn [call_module]; lia.
Qed.

(** ** Reset *)

(** [reset] on an initialized worker releases the handle and the buffers
    and leaves [initialize()] suspended; the worker's fields still hold
    the released handle and pointers, so the guard still lets calls
    through. [destroy], which makes the same three calls, clears the
    handle. *)
Lemma reset_keeps_released_handle r m :
  initialized (decoderWorker r) = true ->
  wasmModule (decoderWorker r) = Some m ->
  let r1 := snd (onmessage reset_cmd r) in
  native_calls r1 = native_calls r ++
    [Call_opus_decoder_destroy (module_id m) (ToNumber (decoder (decoderWorker r)));
     Call_free (module_id m) (ToNumber (inputBuffer (decoderWorker r)));
     Call_free (module_id m) (ToNumber (outputBuffer (decoderWorker r)))] /\
  suspended r1 = S (suspended r) /\
  decoder (decoderWorker r1) = decoder (decoderWorker r) /\
  inputBuffer (decoderWorker r1) = inputBuffer (decoderWorker r) /\
  outputBuffer (decoderWorker r1) = outputBuffer (decoderWorker r) /\
  initialized (decoderWorker r1) = true.
Proof.
  intros Hi Hm. cbn [onmessage].
  unfold reset, release, bind, this, call, returns_void, initialize.
  rewrite Hi. cbn. rewrite Hm. cbn.
  rewrite <- !app_assoc. repeat split.
  unfold initialized in *. cbn. rewrite Hm in Hi. exact Hi.
Qed.

(** * Further properties of the worker *)

(** ** Initialization that fails *)

(** X1 --- an initialization whose create reports a non-zero code: the
    error pointer is still freed, neither buffer is allocated, and
    [decoder-error] carries the code.  The worker's module is already the
    new one and its handle is what create returned, while both buffer
    pointers are left as they were. *)
Theorem failed_create_allocates_nothing r r' (i : Inst N) :
  c_errorCode (creation i) <> 0 ->
  step (Settle (Normal i)) r = Some r' ->
  let c := creation i in
  let k := instantiated r in
  outbox r' = outbox r ++
    [decoder_error ("Opus decoder creation failed: " ++ string_of_Z (c_errorCode c))%string] /\
  native_calls r' = native_calls r ++
    [Call_malloc k 4; Call_opus_decoder_create k 48000 1 (c_errorPtr c);
     Call_free k (c_errorPtr c)] /\
  decoder (decoderWorker r') = Some (c_handle c) /\
  option_map module_id (wasmModule (decoderWorker r')) = Some k /\
  inputBuffer (decoderWorker r') = inputBuffer (decoderWorker r) /\
  outputBuffer (decoderWorker r') = outputBuffer (decoderWorker r) /\
  suspended r = S (suspended r').
Proof.
  intros Hcode. cbn [step]. destruct (suspended r) as [|n] eqn:Hn; [discriminate|].
  intros [= <-]. rewrite initialize_resume_loaded. cbv zeta.
  apply Z.eqb_neq in Hcode. rewrite Hcode.
  cbn -[string_of_Z append]. repeat split.
Qed.

(** X2 --- a ['reset'] on an initialized worker whose reload is rejected:
    the handle and both buffers have been released, [decoder-error] carries
    the rejection's message, nothing is left suspended, and the worker
    still holds the released handle and pointers, so the guard still
    passes. *)
Theorem reset_then_rejected_load r m (e : exn) :
  initialized (decoderWorker r) = true ->
  wasmModule (decoderWorker r) = Some m ->
  exists r',
    run [Deliver reset_cmd; Settle (Throw e)] r = Some r' /\
    outbox r' = outbox r ++ [decoder_error (message e)] /\
    suspended r' = suspended r /\
    native_calls r' = native_calls r ++
      [Call_opus_decoder_destroy (module_id m) (ToNumber (decoder (decoderWorker r)));
       Call_free (module_id m) (ToNumber (inputBuffer (decoderWorker r)));
       Call_free (module_id m) (ToNumber (outputBuffer (decoderWorker r)))] /\
    decoder (decoderWorker r') = decoder (decoderWorker r) /\
    inputBuffer (decoderWorker r') = inputBuffer (decoderWorker r) /\
    outputBuffer (decoderWorker r') = outputBuffer (decoderWorker r) /\
    initialized (decoderWorker r') = true.
Proof.
  intros Hi Hm.
  destruct (reset_keeps_released_handle r m Hi Hm) as (Hc & Hs & Hd & Hib & Hob & Hi1).
  cbv zeta in *. cbn [run step]. rewrite Hs. rewrite initialize_resume_rejected.
  eexists. split; [reflexivity|].
  cbn [snd postMessage outbox suspended native_calls decoderWorker].
  destruct (reset_frame r) as [Ho _]. cbn [onmessage] in *. rewrite Ho.
  repeat split; assumption.
Qed.

(** ** What a decode message touches *)

Lemma decode_footprint r (opusData : list byte) :
  let r' := snd (decode opusData r) in
  decoder (decoderWorker r') = decoder (decoderWorker r) /\
  inputBuffer (decoderWorker r') = inputBuffer (decoderWorker r) /\
  outputBuffer (decoderWorker r') = outputBuffer (decoderWorker r) /\
  option_map module_id (wasmModule (decoderWorker r'))
    = option_map module_id (wasmModule (decoderWorker r)) /\
  instantiated r' = instantiated r /\
  (native_calls r' = native_calls r \/
   exists m, wasmModule (decoderWorker r) = Some m /\
             initialized (decoderWorker r) = true /\
             native_calls r' = native_calls r ++ [decode_entry (decoderWorker r) m opusData]).
Proof.
  cbv zeta.
  destruct (Bool.bool_dec (initialized (decoderWorker r)) true) as [Hi|Hi];
    [|apply not_true_is_false in Hi].
  - destruct (initialized_true _ Hi) as (d & m & _ & _ & Hm).
    destruct (input_fits (decoderWorker r) m opusData) eqn:Hfit.
    + assert (Hc : forall i',
        let r1 := called r m i' (decode_entry (decoderWorker r) m opusData) in
        forall r', r' = r1 \/ (exists e, r' = caught e r1) ->
        decoder (decoderWorker r') = decoder (decoderWorker r) /\
        inputBuffer (decoderWorker r') = inputBuffer (decoderWorker r) /\
        outputBuffer (decoderWorker r') = outputBuffer (decoderWorker r) /\
        option_map module_id (wasmModule (decoderWorker r'))
          = option_map module_id (wasmModule (decoderWorker r)) /\
        instantiated r' = instantiated r /\
        (native_calls r' = native_calls r \/
         exists m0, wasmModule (decoderWorker r) = Some m0 /\
           initialized (decoderWorker r) = true /\
           native_calls r' = native_calls r ++ [decode_entry (decoderWorker r) m0 opusData])).
      { intros i' r1 r' [->|[e ->]]; cbn; rewrite Hm; cbn;
          repeat (split; [reflexivity|]); right; exists m; repeat split; assumption. }
      rewrite (decode_initialized _ _ _ Hi Hm Hfit). cbv zeta.
      destruct (fst (native_decode _ _ _)) as [n|e];
        [|cbn [snd]; eapply Hc; right; eauto].
      destruct (n <? 0); [cbn [snd]; eapply Hc; right; eauto|].
      destruct (new_view _ _ _ _); cbn [snd]; eapply Hc; [left; reflexivity|right; eauto].
    + rewrite (decode_rejected _ _ _ Hi Hm Hfit). cbn. repeat (split; [reflexivity|]).
      left. reflexivity.
  - rewrite (decode_uninitialized _ _ Hi). cbn. repeat (split; [reflexivity|]).
    left. reflexivity.
Qed.

(** X3 --- whatever the state and the payload, the handler of a ['decode']
    message ends normally and makes at most one native call, a call of the
    decode primitive: nothing is allocated, freed, created or destroyed,
    and the handle, both buffer pointers, the module and the guard are as
    before. *)
Theorem decode_message_footprint r (data : option (list byte)) :
  let r' := snd (onmessage (decode_cmd data) r) in
  fst (onmessage (decode_cmd data) r) = Normal tt /\
  decoder (decoderWorker r') = decoder (decoderWorker r) /\
  inputBuffer (decoderWorker r') = inputBuffer (decoderWorker r) /\
  outputBuffer (decoderWorker r') = outputBuffer (decoderWorker r) /\
  option_map module_id (wasmModule (decoderWorker r'))
    = option_map module_id (wasmModule (decoderWorker r)) /\
  initialized (decoderWorker r') = initialized (decoderWorker r) /\
  exists made,
    native_calls r' = native_calls r ++ made /\
    (length made <= 1)%nat /\
    forallb is_decode_call made = true.
Proof.
  cbv zeta. cbn [onmessage]. destruct (has_payload data) as [opusData|].
  - unfold try_catch, bind. cbn [performance_now].
    match goal with |- context [decode opusData ?x] => set (r0 := x) end.
    destruct (decode_footprint r0 opusData) as (Hd & Hib & Hob & Hid & _ & Hcalls).
    cbv zeta in *.
    assert (Hmade : exists made,
              native_calls (snd (decode opusData r0)) = native_calls r ++ made /\
              (length made <= 1)%nat /\ forallb is_decode_call made = true).
    { destruct Hcalls as [H|(m & _ & _ & H)]; rewrite H.
      - exists []. rewrite app_nil_r. repeat split. cbn. lia.
      - eexists. split; [reflexivity|]. split; [cbn; lia|reflexivity]. }
    assert (Hinit : initialized (decoderWorker (snd (decode opusData r0)))
                    = initialized (decoderWorker r)).
    { unfold initialized. rewrite Hd.
      change (decoderWorker r0) with (decoderWorker r) in *.
      destruct (wasmModule (decoderWorker (snd (decode opusData r0))));
        destruct (wasmModule (decoderWorker r)); try discriminate; reflexivity. }
    change (decoderWorker r0) with (decoderWorker r) in *.
    destruct (decode opusData r0) as [[decodedAudio|e] r1]; cbn [snd] in *;
      cbn; repeat split; assumption.
  - cbn. repeat (split; [reflexivity|]). exists []. rewrite app_nil_r.
    repeat split. cbn. lia.
Qed.

(** ** Configuration without a gain *)

(** X4 --- on an initialized worker, [configure] with an update that has
    no gain changes nothing at all; with no update object it ends
    normally too: the TypeError is caught and logged on the console, and
    nothing is called or posted. *)
Theorem configure_without_gain r :
  initialized (decoderWorker r) = true ->
  configure (Some {| gain := None |}) r = (Normal tt, r) /\
  fst (configure None r) = Normal tt /\
  length (console (snd (configure None r))) = S (length (console r)) /\
  native_calls (snd (configure None r)) = native_calls r /\
  outbox (snd (configure None r)) = outbox r /\
  decoderWorker (snd (configure None r)) = decoderWorker r.
Proof.
  intros Hi. unfold configure, bind, this, try_catch, ret, throw, console_error.
  rewrite Hi. cbn. rewrite length_app. cbn. repeat split. lia.
Qed.

(** ** The messages a run posts *)

Lemma decode_result_bound r (opusData : list byte) (result : list f32) r' :
  respects_frame_size ->
  decode opusData r = (Normal result, r') ->
  Z.of_nat (length result) <= 5760.
Proof.
  intros Hbound Hdec.
  destruct (initialized (decoderWorker r)) eqn:Hi;
    [|rewrite (decode_uninitialized _ _ Hi) in Hdec; discriminate].
  destruct (initialized_true _ Hi) as (d & m & _ & _ & Hm).
  destruct (input_fits (decoderWorker r) m opusData) eqn:Hfit;
    [|rewrite (decode_rejected _ _ _ Hi Hm Hfit) in Hdec; discriminate].
  rewrite (decode_initialized _ _ _ Hi Hm Hfit) in Hdec. cbv zeta in Hdec.
  destruct (native_decode (decoderWorker r) m opusData) as [[n|e] i'] eqn:Hnat;
    cbn [fst snd] in Hdec; [|discriminate].
  destruct (n <? 0) eqn:Hneg; [discriminate|]. apply Z.ltb_ge in Hneg.
  unfold new_view in Hdec.
  destruct (view_fits 4 (HEAP i') _ n); [|discriminate].
  injection Hdec as <- _. rewrite read_f32_length. cbn [v_length].
  rewrite Z2Nat.id by exact Hneg.
  apply (Hbound _ _ _ _ _ _ _ _ _ Hnat).
Qed.

Lemma onmessage_decode_shape r (data : option (list byte)) :
  respects_frame_size ->
  exists msg,
    outbox (snd (onmessage (decode_cmd data) r)) = outbox r ++ [msg] /\ audio_shape msg.
Proof.
  intros Hbound. cbn [onmessage]. destruct (has_payload data) as [opusData|].
  - unfold try_catch, bind. cbn [performance_now].
    match goal with |- context [decode opusData ?x] => set (r0 := x) end.
    destruct (decode_frame r0 opusData) as [Ho _].
    destruct (decode opusData r0) as [[decodedAudio|e] r1] eqn:Hdec; cbn [snd] in Ho.
    + cbn. rewrite Ho. eexists. split; [reflexivity|]. right.
      repeat split; [discriminate|]. exact (decode_result_bound _ _ _ _ Hbound Hdec).
    + cbn. rewrite Ho. eexists. split; [reflexivity|]. exact I.
  - cbn. eexists. split; [reflexivity|]. left. repeat split.
Qed.

Lemma step_audio_shape (j : Job N) r r' :
  respects_frame_size ->
  Forall audio_shape (outbox r) ->
  step j r = Some r' ->
  Forall audio_shape (outbox r').
Proof.
  intros Hbound Hall. destruct j as [c|loaded]; cbn [step].
  - intros [= <-]. destruct c as [|data|config| | |type]; try exact Hall.
    + destruct (onmessage_decode_shape r data Hbound) as (msg & -> & Hmsg).
      apply Forall_app. split; [exact Hall|]. constructor; [exact Hmsg|constructor].
    + destruct (configure_frame r config) as (_ & Ho & _). cbn [onmessage]. rewrite Ho.
      exact Hall.
    + destruct (reset_frame r) as (Ho & _). cbn [onmessage]. rewrite Ho. exact Hall.
    + destruct (destroy_frame r) as (Hn & Ho & _).
      cbn [onmessage]. unfold bind. destruct (destroy r) as [[[]|e] r1]; [|discriminate].
      cbn in *. rewrite Ho. apply Forall_app. split; [exact Hall|].
      constructor; [exact I|constructor].
  - destruct (suspended r); [discriminate|]. intros [= <-].
    match goal with |- context [initialize_resume loaded ?x] =>
      destruct (initialize_resume_posts x loaded) as (msg & Ho & Hk & _) end.
    rewrite Ho. apply Forall_app. split; [exact Hall|].
    constructor; [|constructor]. destruct Hk as [->|[error ->]]; exact I.
Qed.

(** X5 --- on a native layer that never answers more samples than the
    frame size it is given, every [decoded-audio] message a run adds has
    one of two shapes: silence of 480 samples flagged as packet loss with
    no [decodeTime] and no [samplesDecoded], or audio with a [decodeTime],
    no flag, a [samplesDecoded] equal to the length of [audioData], and at
    most 5760 samples. *)
Theorem posted_audio_is_well_shaped (jobs : list (Job N)) r r' :
  respects_frame_size ->
  Forall audio_shape (outbox r) ->
  run jobs r = Some r' ->
  Forall audio_shape (outbox r').
Proof.
  intros Hbound. revert r. induction jobs as [|j jobs IH]; intros r Hall; cbn [run].
  - intros [= <-]. exact Hall.
  - destruct (step j r) as [r1|] eqn:Hs; [|discriminate].
    apply IH. exact (step_audio_shape j r r1 Hbound Hall Hs).
Qed.

Lemma step_posts (j : Job N) r r' :
  step j r = Some r' ->
  exists added, outbox r' = outbox r ++ added /\ length added = posts j.
Proof.
  destruct j as [c|loaded]; cbn [step].
  - intros [= <-]. destruct c as [|data|config| | |type].
    + exists []. rewrite app_nil_r. split; reflexivity.
    + destruct (onmessage_decode_posts r data) as (msg & Ho & _ & _).
      exists [msg]. split; [exact Ho|reflexivity].
    + destruct (configure_frame r config) as (_ & Ho & _).
      exists []. rewrite app_nil_r. split; [exact Ho|reflexivity].
    + destruct (reset_frame r) as (Ho & _).
      exists []. rewrite app_nil_r. split; [exact Ho|reflexivity].
    + destruct (destroy_frame r) as (Hn & Ho & _).
      cbn [onmessage]. unfold bind. destruct (destroy r) as [[[]|e] r1]; [|discriminate].
      cbn in *. rewrite Ho. exists [destroyed]. split; reflexivity.
    + exists []. rewrite app_nil_r. split; reflexivity.
  - destruct (suspended r); [discriminate|]. intros [= <-].
    match goal with |- context [initialize_resume loaded ?x] =>
      destruct (initialize_resume_posts x loaded) as (msg & Ho & _ & _) end.
    exists [msg]. split; [exact Ho|reflexivity].
Qed.

(** X6 --- the messages posted are never changed or removed, and how many
    a run adds depends on the jobs alone, not on the state: one for each
    ['decode'] message, one for each ['destroy'] message and one for each
    settled initialization; ['init'], ['configure'], ['reset'] and unknown
    messages add none in the run of their handler. *)
Theorem outbox_grows_by_posting_jobs (jobs : list (Job N)) r r' :
  run jobs r = Some r' ->
  exists added,
    outbox r' = outbox r ++ added /\
    length added = list_sum (map posts jobs).
Proof.
  revert r. induction jobs as [|j jobs IH]; intros r; cbn [run].
  - intros [= <-]. exists []. rewrite app_nil_r. split; reflexivity.
  - destruct (step j r) as [r1|] eqn:Hs; [|discriminate]. intros Hrun.
    destruct (step_posts j r r1 Hs) as (a1 & Ho1 & Hl1).
    destruct (IH r1 Hrun) as (a2 & Ho2 & Hl2).
    exists (a1 ++ a2). split.
    + rewrite Ho2, Ho1, app_assoc. reflexivity.
    + rewrite length_app, Hl1, Hl2. reflexivity.
Qed.

(** ** After destroy *)

Lemma onmessage_uninitialized_inert r (c : Command) :
  initialized (decoderWorker r) = false ->
  native_calls (snd (onmessage c r)) = native_calls r /\
  suspended (snd (onmessage c r)) = (suspended r + if is_init c then 1 else 0)%nat.
Proof.
  intros Hi. destruct c as [|data|config| | |type]; cbn [onmessage is_init].
  - cbn. split; [reflexivity|lia].
  - rewrite Nat.add_0_r. destruct (has_payload data) as [opusData|]; [|split; reflexivity].
    unfold try_catch, bind. cbn [performance_now].
    rewrite decode_uninitialized by exact Hi. split; reflexivity.
  - rewrite (configure_uninitialized _ _ Hi). cbn. split; [reflexivity|lia].
  - rewrite (reset_uninitialized _ Hi). cbn. split; [reflexivity|lia].
  - unfold bind. rewrite (destroy_uninitialized _ Hi). cbn. split; [reflexivity|lia].
  - cbn. split; [reflexivity|lia].
Qed.

Lemma run_uninitialized_inert (cmds : list Command) r r' :
  initialized (decoderWorker r) = false ->
  run (map Deliver cmds) r = Some r' ->
  decoderWorker r' = decoderWorker r /\
  native_calls r' = native_calls r /\
  suspended r' = (suspended r + length (filter is_init cmds))%nat.
Proof.
  revert r. induction cmds as [|c cmds IH]; intros r Hi; cbn [map run step].
  - intros [= <-]. cbn. repeat split. lia.
  - intros Hrun.
    pose proof (onmessage_keeps_uninitialized r c Hi) as Hw.
    destruct (onmessage_uninitialized_inert r c Hi) as [Hc Hs].
    destruct (IH (snd (onmessage c r))) as (Hw' & Hc' & Hs'); [rewrite Hw; exact Hi|exact Hrun|].
    rewrite Hw', Hw, Hc', Hc, Hs', Hs. repeat split.
    cbn [filter]. destruct (is_init c); cbn [length]; lia.
Qed.

(** X7 --- after a ['destroy'] message, whatever the state before and
    whatever messages follow, the guard fails and no native call is made
    as long as no initialization settles: a ['decode'] gets ['Decoder not
    initialized'] or silence, ['configure'], ['reset'] and a further
    ['destroy'] do nothing, and only ['init'] messages leave an
    [initialize()] suspended (a ['reset'] does not start one). *)
Theorem destroyed_worker_is_inert r (cmds : list Command) r' :
  run (Deliver destroy_cmd :: map Deliver cmds) r = Some r' ->
  let r1 := snd (onmessage destroy_cmd r) in
  initialized (decoderWorker r') = false /\
  decoderWorker r' = decoderWorker r1 /\
  native_calls r' = native_calls r1 /\
  suspended r' = (suspended r + length (filter is_init cmds))%nat.
Proof.
  cbn [run step]. intros Hrun. cbv zeta.
  assert (H1 : initialized (decoderWorker (snd (onmessage destroy_cmd r))) = false /\
               suspended (snd (onmessage destroy_cmd r)) = suspended r).
  { cbn [onmessage]. unfold bind.
    destruct (initialized (decoderWorker r)) eqn:Hi.
    - destruct (initialized_true _ Hi) as (d & m & _ & _ & Hm).
      destruct (destroy_initialized _ _ Hi Hm) as (r2 & Hd & Hnull & _ & Hs2 & _).
      rewrite Hd. cbn. unfold initialized. rewrite Hnull. auto.
    - rewrite (destroy_uninitialized _ Hi). cbn. auto. }
  destruct H1 as [Hi1 Hs1].
  destruct (run_uninitialized_inert cmds _ _ Hi1 Hrun) as (Hw & Hc & Hs).
  rewrite Hw, Hc, Hs, Hs1. auto.
Qed.

(** ** Acquiring and releasing *)

Lemma settled_worker r (i : Inst N) :
  c_errorCode (creation i) = 0 ->
  let c := creation i in
  let k := instantiated r in
  let r1 := snd (initialize_resume (Normal i) r) in
  decoderWorker r1 =
    {| decoder := Some (c_handle c);
       wasmModule := Some {| module_id := k; instance := c_allocated c |};
       inputBuffer := Some (c_inputBuffer c);
       outputBuffer := Some (c_outputBuffer c) |} /\
  outbox r1 = outbox r ++ [decoder_ready] /\
  suspended r1 = suspended r /\
  native_calls r1 = native_calls r ++
    [Call_malloc k 4; Call_opus_decoder_create k 48000 1 (c_errorPtr c);
     Call_free k (c_errorPtr c); Call_malloc k 4000; Call_malloc k 23040].
Proof.
  intros Hcode. cbv zeta. rewrite initialize_resume_loaded. cbv zeta. rewrite Hcode.
  cbn. repeat split.
Qed.

(** X8 --- what [initialize] acquires, [destroy] releases: after an
    initialization that succeeded with a non-null handle, a ['destroy']
    message destroys that handle and frees the two buffers [initialize]
    allocated, in the module they belong to, and the error pointer was
    freed by [initialize] itself; every allocation of the pair is matched
    by one free. *)
Theorem destroy_releases_what_initialize_acquired r r1 (i : Inst N) :
  c_errorCode (creation i) = 0 ->
  c_handle (creation i) <> 0 ->
  step (Settle (Normal i)) r = Some r1 ->
  let c := creation i in
  let k := instantiated r in
  exists r2,
    onmessage destroy_cmd r1 = (Normal tt, r2) /\
    native_calls r2 = native_calls r ++
      [Call_malloc k 4; Call_opus_decoder_create k 48000 1 (c_errorPtr c);
       Call_free k (c_errorPtr c); Call_malloc k 4000; Call_malloc k 23040;
       Call_opus_decoder_destroy k (c_handle c);
       Call_free k (c_inputBuffer c); Call_free k (c_outputBuffer c)] /\
    outbox r2 = outbox r ++ [decoder_ready; destroyed] /\
    initialized (decoderWorker r2) = false.
Proof.
  intros Hcode Hnz. cbn [step]. destruct (suspended r) as [|n]; [discriminate|].
  intros [= <-]. cbv zeta.
  match goal with |- context [initialize_resume (Normal i) ?x] => set (r0 := x) end.
  destruct (settled_worker r0 i Hcode) as (Hw & Ho & _ & Hc). cbv zeta in *.
  set (r1 := snd (initialize_resume (Normal i) r0)) in *.
  assert (Hi : initialized (decoderWorker r1) = true).
  { rewrite Hw. unfold initialized, truthy. cbn.
    apply Z.eqb_neq in Hnz. rewrite Hnz. reflexivity. }
  assert (Hm : wasmModule (decoderWorker r1)
               = Some {| module_id := instantiated r0; instance := c_allocated (creation i) |})
    by (rewrite Hw; reflexivity).
  destruct (destroy_initialized _ _ Hi Hm) as (r2 & Hd & Hnull & Ho2 & _ & Hc2).
  cbn [onmessage]. unfold bind. rewrite Hd.
  eexists. split; [reflexivity|]. cbn [snd postMessage native_calls outbox decoderWorker].
  rewrite Hc2, Hc, Ho2, Ho, Hw. cbn [decoder inputBuffer outputBuffer ToNumber module_id].
  rewrite <- !app_assoc. repeat split.
  unfold initialized. rewrite Hnull. reflexivity.
Qed.

(** X9 --- a ['reset'] on an initialized worker whose reload succeeds:
    the old handle is destroyed and the old buffers are freed in the old
    module, then a handle and two buffers are made in the new module and
    replace them; exactly one [decoder-ready] is posted and nothing is
    left suspended.  (A second ['init'] makes the same five calls without
    the three releases.) *)
Theorem reset_recreates r m (i : Inst N) :
  initialized (decoderWorker r) = true ->
  wasmModule (decoderWorker r) = Some m ->
  c_errorCode (creation i) = 0 ->
  let c := creation i in
  let k := instantiated r in
  exists r',
    run [Deliver reset_cmd; Settle (Normal i)] r = Some r' /\
    native_calls r' = native_calls r ++
      [Call_opus_decoder_destroy (module_id m) (ToNumber (decoder (decoderWorker r)));
       Call_free (module_id m) (ToNumber (inputBuffer (decoderWorker r)));
       Call_free (module_id m) (ToNumber (outputBuffer (decoderWorker r)));
       Call_malloc k 4; Call_opus_decoder_create k 48000 1 (c_errorPtr c);
       Call_free k (c_errorPtr c); Call_malloc k 4000; Call_malloc k 23040] /\
    decoderWorker r' =
      {| decoder := Some (c_handle c);
         wasmModule := Some {| module_id := k; instance := c_allocated c |};
         inputBuffer := Some (c_inputBuffer c);
         outputBuffer := Some (c_outputBuffer c) |} /\
    outbox r' = outbox r ++ [decoder_ready] /\
    suspended r' = suspended r.
Proof.
  intros Hi Hm Hcode. cbv zeta.
  assert (Hr : exists r1,
            onmessage reset_cmd r = (Normal tt, r1) /\
            suspended r1 = S (suspended r) /\ instantiated r1 = instantiated r /\
            outbox r1 = outbox r /\
            native_calls r1 = native_calls r ++
              [Call_opus_decoder_destroy (module_id m) (ToNumber (decoder (decoderWorker r)));
               Call_free (module_id m) (ToNumber (inputBuffer (decoderWorker r)));
               Call_free (module_id m) (ToNumber (outputBuffer (decoderWorker r)))]).
  { cbn [onmessage]. unfold reset, release, bind, this, call, returns_void, initialize.
    rewrite Hi. cbn. rewrite Hm. cbn. eexists. split; [reflexivity|]. cbn.
    rewrite <- !app_assoc. repeat split. }
  destruct Hr as (r1 & Hon & Hs & Hk & Ho & Hc).
  cbn [run step]. rewrite Hon. cbn [snd]. rewrite Hs.
  match goal with |- context [initialize_resume (Normal i) ?x] => set (r0 := x) end.
  destruct (settled_worker r0 i Hcode) as (Hw' & Ho' & Hs' & Hc'). cbv zeta in *.
  eexists. split; [reflexivity|].
  rewrite Hw', Ho', Hs', Hc'. subst r0. cbn [native_calls outbox suspended instantiated].
  rewrite Hc, Ho, Hk, <- !app_assoc. repeat split.
Qed.

(** ** A stream of decode messages *)

Lemma decode_message_calls r m (data : option (list byte)) :
  initialized (decoderWorker r) = true ->
  wasmModule (decoderWorker r) = Some m ->
  let r' := snd (onmessage (decode_cmd data) r) in
  exists m' made,
    wasmModule (decoderWorker r') = Some m' /\
    module_id m' = module_id m /\
    decoder (decoderWorker r') = decoder (decoderWorker r) /\
    inputBuffer (decoderWorker r') = inputBuffer (decoderWorker r) /\
    outputBuffer (decoderWorker r') = outputBuffer (decoderWorker r) /\
    native_calls r' = native_calls r ++ made /\
    (length made <= 1)%nat /\
    Forall (decodes_with (decoderWorker r) m) made.
Proof.
  intros Hi Hm. cbv zeta. cbn [onmessage]. destruct (has_payload data) as [opusData|].
  - unfold try_catch, bind. cbn [performance_now].
    match goal with |- context [decode opusData ?x] => set (r0 := x) end.
    destruct (decode_footprint r0 opusData) as (Hd & Hib & Hob & Hid & _ & Hcalls).
    cbv zeta in *. change (decoderWorker r0) with (decoderWorker r) in *.
    change (native_calls r0) with (native_calls r) in *.
    rewrite Hm in Hid. cbn [option_map] in Hid.
    assert (Hmod : exists m', wasmModule (decoderWorker (snd (decode opusData r0))) = Some m'
                              /\ module_id m' = module_id m).
    { destruct (wasmModule (decoderWorker (snd (decode opusData r0)))) as [m'|];
        [|discriminate]. injection Hid as Hid. eauto. }
    destruct Hmod as (m' & Hm' & Hk).
    assert (Hmade : exists made,
              native_calls (snd (decode opusData r0)) = native_calls r ++ made /\
              (length made <= 1)%nat /\ Forall (decodes_with (decoderWorker r) m) made).
    { destruct Hcalls as [H|(m0 & Hm0 & _ & H)]; rewrite H.
      - exists []. rewrite app_nil_r. repeat split; [cbn; lia|constructor].
      - rewrite Hm in Hm0. injection Hm0 as <-.
        eexists. split; [reflexivity|]. split; [cbn; lia|].
        constructor; [|constructor]. eexists. reflexivity. }
    destruct Hmade as (made & Hc & Hl & Hall).
    exists m', made.
    destruct (decode opusData r0) as [[decodedAudio|e] r1]; cbn [snd] in *;
      cbn; repeat split; assumption.
  - cbn. exists m, []. rewrite app_nil_r.
    repeat split; first [exact Hm | reflexivity | (cbn; lia) | constructor].
Qed.

(** X10 --- the buffers are sized once and reused: over any stream of
    ['decode'] messages received by an initialized worker, whatever each
    decode's outcome, every native call made is a call of the decode
    primitive with the same handle, the same input pointer and the same
    output pointer, frame size 5760 and FEC off, at most one per message;
    nothing is allocated or freed, and the worker stays initialized. *)
Theorem decodes_reuse_the_buffers (payloads : list (option (list byte))) r m r' :
  initialized (decoderWorker r) = true ->
  wasmModule (decoderWorker r) = Some m ->
  run (map (fun data => Deliver (decode_cmd data)) payloads) r = Some r' ->
  exists made,
    native_calls r' = native_calls r ++ made /\
    Forall (decodes_with (decoderWorker r) m) made /\
    (length made <= length payloads)%nat /\
    decoder (decoderWorker r') = decoder (decoderWorker r) /\
    inputBuffer (decoderWorker r') = inputBuffer (decoderWorker r) /\
    outputBuffer (decoderWorker r') = outputBuffer (decoderWorker r) /\
    initialized (decoderWorker r') = true.
Proof.
  revert r m. induction payloads as [|data payloads IH]; intros r m Hi Hm; cbn [map run step].
  - intros [= <-]. exists []. rewrite app_nil_r. repeat split; [constructor|cbn; lia|exact Hi].
  - intros Hrun.
    destruct (decode_message_calls r m data Hi Hm)
      as (m1 & made1 & Hm1 & Hk & Hd & Hib & Hob & Hc1 & Hl1 & Hall1).
    cbv zeta in *. set (r1 := snd (onmessage (decode_cmd data) r)) in *.
    assert (Hi1 : initialized (decoderWorker r1) = true).
    { unfold initialized in *. rewrite Hd, Hm1. rewrite Hm in Hi. exact Hi. }
    destruct (IH r1 m1 Hi1 Hm1 Hrun) as (made2 & Hc2 & Hall2 & Hl2 & Hd2 & Hib2 & Hob2 & Hi2).
    exists (made1 ++ made2). split; [rewrite Hc2, Hc1, app_assoc; reflexivity|].
    split.
    { apply Forall_app. split; [exact Hall1|].
      eapply Forall_impl; [|exact Hall2]. intros entry [len ->].
      exists len. rewrite Hd, Hib, Hob, Hk. reflexivity. }
    split; [rewrite length_app; cbn [length]; lia|].
    rewrite Hd2, Hib2, Hob2, Hd, Hib, Hob. auto.
Qed.

(** ** The clock *)

Lemma decode_clock r (opusData : list byte) :
  timer (snd (decode opusData r)) = timer r /\
  readings (snd (decode opusData r)) = readings r /\
  console (snd (decode opusData r)) =
    console r ++
    match fst (decode opusData r) with
    | Throw e => if initialized (decoderWorker r)
                 then [("Decode error: " ++ message e)%string] else []
    | Normal _ => []
    end.
Proof.
  destruct (Bool.bool_dec (initialized (decoderWorker r)) true) as [Hi|Hi];
    [|apply not_true_is_false in Hi].
  - destruct (initialized_true _ Hi) as (d & m & _ & _ & Hm). rewrite Hi.
    destruct (input_fits (decoderWorker r) m opusData) eqn:Hfit.
    + rewrite (decode_initialized _ _ _ Hi Hm Hfit). cbv zeta.
      destruct (fst (native_decode _ _ _)) as [n|e]; [|repeat split].
      destruct (n <? 0); [repeat split|].
      destruct (new_view _ _ _ _); cbn; rewrite ?app_nil_r; repeat split.
    + rewrite (decode_rejected _ _ _ Hi Hm Hfit). repeat split.
  - rewrite (decode_uninitialized _ _ Hi), Hi. cbn. rewrite app_nil_r. repeat split.
Qed.

Lemma step_clock (j : Job N) r r' :
  step j r = Some r' ->
  timer r' = timer r /\
  (readings r <= readings r')%nat /\
  exists added,
    outbox r' = outbox r ++ added /\
    (length added <= 1)%nat /\
    Forall (stamped (timer r) (readings r) (readings r')) added.
Proof.
  destruct j as [c|loaded]; cbn [step].
  - intros [= <-]. destruct c as [|data|config| | |type].
    + cbn. repeat split; [lia|]. exists []. rewrite app_nil_r. repeat split; [cbn; lia|constructor].
    + cbn [onmessage]. destruct (has_payload data) as [opusData|].
      * unfold try_catch, bind. cbn [performance_now].
        match goal with |- context [decode opusData ?x] => set (r0 := x) end.
        destruct (decode_clock r0 opusData) as (Ht & Hr & _).
        destruct (decode_frame r0 opusData) as [Ho _].
        change (timer r0) with (timer r) in *. change (outbox r0) with (outbox r) in *.
        change (readings r0) with (S (readings r)) in *.
        destruct (decode opusData r0) as [[decodedAudio|e] r1]; cbn [snd] in *.
        -- cbn. rewrite Ht, Hr, Ho. repeat split; [lia|].
           eexists. split; [reflexivity|]. split; [cbn; lia|].
           constructor; [|constructor]. cbn. split.
           ++ exists (S (S (readings r))). split; [lia|reflexivity].
           ++ intros d [= <-]. exists (readings r), (S (readings r)). split; [lia|reflexivity].
        -- cbn. rewrite Ht, Hr, Ho. repeat split; [lia|].
           eexists. split; [reflexivity|]. split; [cbn; lia|].
           constructor; [exact I|constructor].
      * cbn. repeat split; [lia|].
        eexists. split; [reflexivity|]. split; [cbn; lia|].
        constructor; [|constructor]. cbn. split.
        -- exists (readings r). split; [lia|reflexivity].
        -- intros d [=].
    + cbn [onmessage].
      destruct (initialized (decoderWorker r)) eqn:Hi.
      * destruct (initialized_true _ Hi) as (d & m & _ & _ & Hm).
        assert (Hk : timer (snd (configure config r)) = timer r /\
                     readings (snd (configure config r)) = readings r /\
                     outbox (snd (configure config r)) = outbox r).
        { destruct config as [cfg|].
          - destruct (gain cfg) as [g|] eqn:Hg.
            + rewrite (configure_gain _ _ _ _ Hi Hm Hg). cbv zeta.
              destruct (fst (_opus_decoder_ctl _ _ _ _)); repeat split.
            + unfold configure, bind, this, try_catch, ret. rewrite Hi, Hg. repeat split.
          - unfold configure, bind, this, try_catch, throw. rewrite Hi. repeat split. }
        destruct Hk as (-> & -> & ->). repeat split; [lia|].
        exists []. rewrite app_nil_r. repeat split; [cbn; lia|constructor].
      * rewrite (configure_uninitialized _ _ Hi). cbn. repeat split; [lia|].
        exists []. rewrite app_nil_r. repeat split; [cbn; lia|constructor].
    + cbn [onmessage].
      assert (Hk : timer (snd (reset r)) = timer r /\
                   readings (snd (reset r)) = readings r /\
                   outbox (snd (reset r)) = outbox r).
      { destruct (initialized (decoderWorker r)) eqn:Hi.
        - destruct (initialized_true _ Hi) as (d & m & _ & _ & Hm).
          unfold reset, release, bind, this, call, returns_void, initialize.
          rewrite Hi. cbn. rewrite Hm. cbn. repeat split.
        - rewrite (reset_uninitialized _ Hi). repeat split. }
      destruct Hk as (-> & -> & ->). repeat split; [lia|].
      exists []. rewrite app_nil_r. repeat split; [cbn; lia|constructor].
    + cbn [onmessage]. unfold bind.
      assert (Hk : exists r1, destroy r = (Normal tt, r1) /\ timer r1 = timer r /\
                   readings r1 = readings r /\ outbox r1 = outbox r).
      { destruct (initialized (decoderWorker r)) eqn:Hi.
        - destruct (initialized_true _ Hi) as (d & m & _ & _ & Hm).
          unfold destroy, release, bind, this, call, assign, returns_void.
          rewrite Hi. cbn. rewrite Hm. cbn. eexists. repeat split.
        - rewrite (destroy_uninitialized _ Hi). eexists. repeat split. }
      destruct Hk as (r1 & -> & Ht & Hr & Ho). cbn. rewrite Ht, Hr, Ho.
      repeat split; [lia|]. eexists. split; [reflexivity|]. split; [cbn; lia|].
      constructor; [exact I|constructor].
    + cbn. repeat split; [lia|]. exists []. rewrite app_nil_r. repeat split; [cbn; lia|constructor].
  - destruct (suspended r); [discriminate|]. intros [= <-].
    match goal with |- context [initialize_resume loaded ?x] => set (r0 := x) end.
    assert (Hk : timer (snd (initialize_resume loaded r0)) = timer r /\
                 readings (snd (initialize_resume loaded r0)) = readings r).
    { destruct loaded as [i|e].
      - rewrite initialize_resume_loaded. cbv zeta.
        destruct (c_errorCode (creation i) =? 0); split; reflexivity.
      - rewrite initialize_resume_rejected. split; reflexivity. }
    destruct Hk as [-> ->].
    destruct (initialize_resume_posts r0 loaded) as (msg & Ho & Hkind & _).
    repeat split; [lia|]. exists [msg]. split; [exact Ho|]. split; [cbn; lia|].
    constructor; [|constructor]. destruct Hkind as [->|[error ->]]; exact I.
Qed.

Lemma timestamps_app (l1 l2 : list Message) :
  timestamps (l1 ++ l2) = timestamps l1 ++ timestamps l2.
Proof. apply flat_map_app. Qed.

Lemma sorted_snoc (l : list Z) (x : Z) :
  StronglySorted Z.le l -> Forall (fun t => t <= x) l -> StronglySorted Z.le (l ++ [x]).
Proof.
  induction 1 as [|a l Hs IH Ha]; intros Hx; cbn.
  - repeat constructor.
  - inversion Hx as [|? ? Hax Hlx]; subst. constructor; [apply IH; exact Hlx|].
    apply Forall_app. split; [exact Ha|]. constructor; [exact Hax|constructor].
Qed.

Lemma run_clock (jobs : list (Job N)) r r' :
  monotone (timer r) ->
  StronglySorted Z.le (timestamps (outbox r)) ->
  Forall (fun t => t <= timer r (readings r)) (timestamps (outbox r)) ->
  Forall (fun msg => forall d, decodeTime_of msg = Some d -> 0 <= d) (outbox r) ->
  run jobs r = Some r' ->
  StronglySorted Z.le (timestamps (outbox r')) /\
  Forall (fun msg => forall d, decodeTime_of msg = Some d -> 0 <= d) (outbox r').
Proof.
  revert r. induction jobs as [|j jobs IH]; intros r Hmono Hs Hb Hd; cbn [run].
  - intros [= <-]. split; assumption.
  - destruct (step j r) as [r1|] eqn:Hstep; [|discriminate].
    destruct (step_clock j r r1 Hstep) as (Ht & Hr & added & Ho & Hl & Hst).
    apply IH.
    + rewrite Ht. exact Hmono.
    + rewrite Ho, timestamps_app.
      destruct added as [|msg [|? ?]]; [cbn; rewrite app_nil_r; exact Hs| |cbn in Hl; lia].
      inversion Hst as [|? ? Hmsg _]; subst.
      destruct msg; cbn; rewrite ?app_nil_r; try exact Hs.
      destruct Hmsg as [(n & Hn & ->) _].
      apply sorted_snoc; [exact Hs|].
      eapply Forall_impl; [|exact Hb]. cbn. intros t Hle.
      specialize (Hmono (readings r) n ltac:(lia)). lia.
    + rewrite Ht, Ho, timestamps_app. apply Forall_app. split.
      * eapply Forall_impl; [|exact Hb]. cbn. intros t Hle.
        specialize (Hmono (readings r) (readings r1) Hr). lia.
      * destruct added as [|msg [|? ?]]; [constructor| |cbn in Hl; lia].
        inversion Hst as [|? ? Hmsg _]; subst.
        destruct msg; cbn; try constructor; [|constructor].
        destruct Hmsg as [(n & Hn & ->) _]. apply Hmono. lia.
    + rewrite Ho. apply Forall_app. split; [exact Hd|].
      eapply Forall_impl; [|exact Hst]. intros msg Hmsg d Hdt.
      destruct msg; cbn in Hdt; try discriminate.
      destruct Hmsg as [_ Hdiff]. destruct (Hdiff d Hdt) as (n1 & n2 & Hn & ->).
      specialize (Hmono n1 n2 Hn). lia.
Qed.

(** X11 --- with a monotone clock, in every run from the start the
    timestamps of the audio messages posted never decrease along the
    outbox, and every [decodeTime] posted is non-negative. *)
Theorem timestamps_never_decrease (clock : nat -> Z) (jobs : list (Job N)) r' :
  monotone clock ->
  run jobs (start clock) = Some r' ->
  StronglySorted Z.le (timestamps (outbox r')) /\
  Forall (fun msg => forall d, decodeTime_of msg = Some d -> 0 <= d) (outbox r').
Proof.
  intros Hmono Hrun.
  apply (run_clock jobs (start clock) r'); try exact Hrun; try exact Hmono; constructor.
Qed.


End Properties.

(** * The properties on the mock native layer *)

(** [Math.round(g * 256)] on a few gains: 1.5, 1, 0.001953125 (= 2^-9,
    a tie, rounded up), -0.001953125 (a tie, rounded to -0) and 0.3. *)
Example gain_values :
  Math_round (number_mul (S754_finite false 3 (-1)) (number_of_Z 256)) = number_of_Z 384 /\
  Math_round (number_mul (number_of_Z 1) (number_of_Z 256)) = number_of_Z 256 /\
  Math_round (number_mul (S754_finite false 1 (-9)) (number_of_Z 256)) = number_of_Z 1 /\
  Math_round (number_mul (S754_finite true 1 (-9)) (number_of_Z 256)) = S754_zero true /\
  Math_round (number_mul (S754_finite false 5404319552844595 (-54)) (number_of_Z 256))
    = number_of_Z 77.
Proof. vm_compute. repeat split. Qed.

(** The end-to-end run of the specification: ['init'], a 200-byte packet
    decoded to 960 samples, an empty packet, a gain, ['destroy']. *)
Example end_to_end :
  let r := Mock.after
    [Deliver init; Settle (Normal (Mock.loaded 0 [960] false));
     Deliver (decode_cmd (Some (Mock.packet 200)));
     Deliver (decode_cmd (Some []));
     Deliver (configure_cmd (Some {| gain := Some (number_of_Z 1) |}));
     Deliver destroy_cmd] (start Mock.clock) in
  map (fun msg => match msg with
                  | decoded_audio a _ _ n l => decoded_audio [] (Z.of_nat (length a)) None n l
                  | _ => msg
                  end) (outbox r)
  = [decoder_ready; decoded_audio [] 960 None (Some 960) None;
     decoded_audio [] 480 None None (Some true); destroyed].
Proof. vm_compute. reflexivity. Qed.

(** Realms and instances hold memories, which are functions: they are
    named by the computation that makes them, and only their finite parts
    are evaluated. *)
Lemma pair_from_fst {A B : Type} (p : A * B) (a : A) :
  fst p = a -> p = (a, snd p).
Proof. destruct p. cbn. intros ->. reflexivity. Qed.

Lemma run_after (jobs : list (Job Mock.Engine)) (r : Realm Mock.Engine) :
  match run jobs r with Some _ => true | None => false end = true ->
  run jobs r = Some (Mock.after jobs r).
Proof. unfold Mock.after. destruct (run jobs r); [reflexivity|discriminate]. Qed.

Lemma step_after (j : Job Mock.Engine) (r : Realm Mock.Engine) :
  match step j r with Some _ => true | None => false end = true ->
  step j r = Some (Mock.after [j] r).
Proof. unfold Mock.after. cbn [run]. destruct (step j r); [reflexivity|discriminate]. Qed.

(** ** Calls on a worker that is not initialized *)

(** C1, where it fails --- after an initialization attempt whose create
    reported -7 (and returned a null handle), the worker is not
    initialized, and [configure] with a gain does not fail with ['Decoder
    not initialized']: it returns normally, and the ['configure'] message
    posts nothing and logs nothing.  And the null handle matters:
    [initialize] stores what create returns before it reads the error
    code, so on a native layer whose create reports -7 and still returns a
    handle (16) the attempt fails, the guard passes, and [decode] reaches
    the native primitive, with the buffers that were never allocated
    (pointer 0). *)
Lemma configure_before_ready_is_silent :
  let r := Mock.errored (-7) in
  let r2 := Mock.after (L := Mock.stubborn)
              [Deliver init; Settle (Normal (Mock.loaded (-7) [] false))]
              (start Mock.clock) in
  (outbox r = [decoder_error "Opus decoder creation failed: -7"] /\
   initialized (decoderWorker r) = false /\
   fst (configure (Some Mock.gain_1_5) r) = Normal tt /\
   fst (configure (Some Mock.gain_1_5) r) <> Throw (Error "Decoder not initialized") /\
   outbox (snd (onmessage (configure_cmd (Some Mock.gain_1_5)) r)) = outbox r /\
   console (snd (onmessage (configure_cmd (Some Mock.gain_1_5)) r)) = [] /\
   native_calls (snd (onmessage (configure_cmd (Some Mock.gain_1_5)) r)) = native_calls r)
  /\
  (outbox r2 = [decoder_error "Opus decoder creation failed: -7"] /\
   decoder (decoderWorker r2) = Some 16 /\
   initialized (decoderWorker r2) = true /\
   native_calls (snd (decode (L := Mock.stubborn) (Mock.packet 2) r2))
     = native_calls r2 ++ [Call_opus_decode_float 0 16 0 2 0 5760 0]).
Proof. vm_compute. repeat split. discriminate. Qed.

Lemma uninitialized_calls_are_local_witness :
  let r0 := snd (onmessage init (start Mock.clock)) in
  let i := Mock.loaded (-7) [] false in
  let cmds := [decode_cmd (Some (Mock.packet 2)); configure_cmd (Some Mock.gain_1_5);
               reset_cmd; destroy_cmd; decode_cmd None] in
  let r := Mock.after (Settle (Normal i) :: map Deliver cmds) r0 in
  (c_errorCode (creation i) <> 0 /\ c_handle (creation i) = 0 /\
   run (Settle (Normal i) :: map Deliver cmds) r0 = Some r) /\
  initialized (decoderWorker r) = false /\
  (forall opusData, decode opusData r = (Throw (Error "Decoder not initialized"), r)) /\
  (forall config, configure config r = (Normal tt, r)) /\
  (forall b l, exists r',
     onmessage (decode_cmd (Some (b :: l))) r = (Normal tt, r') /\
     outbox r' = outbox r ++ [decode_error "Decoder not initialized"] /\
     native_calls r' = native_calls r /\
     decoderWorker r' = decoderWorker r).
Proof.
  intros r0 i cmds r.
  assert (H : c_errorCode (creation i) <> 0 /\ c_handle (creation i) = 0 /\
              run (Settle (Normal i) :: map Deliver cmds) r0 = Some r).
  { split; [vm_compute; discriminate|]. split; [reflexivity|].
    apply run_after. vm_compute. reflexivity. }
  split; [exact H|].
  apply (uninitialized_calls_are_local r). right. exists r0, i, cmds. exact H.
Defined.

(** ** A decode while a reset is in flight *)

(** C2, where the code departs from it --- ['init'] and a successful load,
    then ['reset'] and at once a ['decode'] with a 2-byte packet, handled
    before the load started by the reset has settled ([suspended] is 1):
    the handle 16 and the buffers 80 and 4080 are released, then the
    native decode primitive is called on that handle and those buffers,
    and the result is posted as audio. *)
Theorem decode_runs_during_reset :
  let r := Mock.ready [2] false in
  let r' := Mock.after [Deliver reset_cmd; Deliver (decode_cmd (Some (Mock.packet 2)))] r in
  run [Deliver reset_cmd; Deliver (decode_cmd (Some (Mock.packet 2)))] r = Some r' /\
  suspended r = 0%nat /\
  suspended r' = 1%nat /\
  decoder (decoderWorker r') = Some 16 /\
  native_calls r' = native_calls r ++
    [Call_opus_decoder_destroy 0 16; Call_free 0 80; Call_free 0 4080;
     Call_opus_decode_float 0 16 80 2 4080 5760 0] /\
  outbox r' = outbox r ++ [decoded_audio [1; 2] 30 (Some 10) (Some 2) None].
Proof.
  split; [apply run_after; vm_compute; reflexivity|].
  vm_compute. repeat split.
Qed.

(** ** Packet loss *)

Lemma packet_loss_silence_witness :
  let r := Mock.ready [] false in
  (Some ([] : list byte) = None \/ Some ([] : list byte) = Some []) /\
  exists r' audioData timestamp,
    onmessage (decode_cmd (Some [])) r = (Normal tt, r') /\
    outbox r' = outbox r ++ [decoded_audio audioData timestamp None None (Some true)] /\
    length audioData = 480%nat /\
    Forall (fun sample => sample = f32_zero) audioData /\
    native_calls r' = native_calls r /\
    decoderWorker r' = decoderWorker r.
Proof.
  intros r. split; [right; reflexivity|].
  apply (packet_loss_silence r (Some [])). right. reflexivity.
Defined.

(** ** What each job posts *)

(** C5, where it fails --- a ['configure'] message with a gain, received
    by an initialized worker, is handled (the control primitive is called)
    and posts nothing, and nothing is left suspended that could post
    later. *)
Lemma configure_posts_nothing :
  let r := Mock.ready [] false in
  let r' := snd (onmessage (configure_cmd (Some Mock.gain_1_5)) r) in
  step (Deliver (configure_cmd (Some Mock.gain_1_5))) r = Some r' /\
  native_calls r' = native_calls r ++ [Call_opus_decoder_ctl 0 16 4034 (number_of_Z 384)] /\
  outbox r' = outbox r /\
  length (outbox r') <> S (length (outbox r)) /\
  suspended r' = 0%nat.
Proof. split; [reflexivity|]. vm_compute. repeat split. discriminate. Qed.

Lemma job_acknowledgment_witness :
  let r := snd (onmessage init (start Mock.clock)) in
  let j := Settle (Normal (Mock.loaded 0 [] false)) in
  let r' := Mock.after [j] r in
  step j r = Some r' /\
  suspended r = S (suspended r') /\
  exists msg, outbox r' = outbox r ++ [msg] /\
    (msg = decoder_ready \/ exists error, msg = decoder_error error).
Proof.
  intros r j r'.
  assert (H : step j r = Some r') by (apply step_after; vm_compute; reflexivity).
  split; [exact H|]. exact (job_acknowledgment j r r' H).
Defined.

Example configure_trap_is_logged :
  let r := Mock.ready [] true in
  let r' := snd (onmessage (configure_cmd (Some Mock.gain_1_5)) r) in
  fst (onmessage (configure_cmd (Some Mock.gain_1_5)) r) = Normal tt /\
  console r' = ["Configuration error: unreachable"%string] /\
  outbox r' = outbox r /\
  initialized (decoderWorker r') = true.
Proof. vm_compute. repeat split. Qed.

(** ** Configuration *)

Lemma module_of_some (r : Realm Mock.Engine) :
  match wasmModule (decoderWorker r) with Some _ => true | None => false end = true ->
  wasmModule (decoderWorker r) = Some (Mock.module_of r).
Proof.
  unfold Mock.module_of. destruct (wasmModule (decoderWorker r)); [reflexivity|discriminate].
Qed.

Lemma configure_best_effort_witness :
  let r := Mock.ready [] true in
  let g := S754_finite false 3 (-1) in
  gain Mock.gain_1_5 = Some g /\
  exists r',
    onmessage (configure_cmd (Some Mock.gain_1_5)) r = (Normal tt, r') /\
    outbox r' = outbox r /\
    suspended r' = suspended r /\
    decoder (decoderWorker r') = decoder (decoderWorker r) /\
    inputBuffer (decoderWorker r') = inputBuffer (decoderWorker r) /\
    outputBuffer (decoderWorker r') = outputBuffer (decoderWorker r) /\
    initialized (decoderWorker r') = initialized (decoderWorker r) /\
    exists m,
      wasmModule (decoderWorker r) = Some m /\
      native_calls r' = native_calls r ++
        [Call_opus_decoder_ctl (module_id m) (ToNumber (decoder (decoderWorker r)))
           4034 (Math_round (number_mul g (number_of_Z 256)))].
Proof.
  intros r g. split; [reflexivity|].
  pose proof (configure_best_effort r Mock.gain_1_5 g eq_refl) as H.
  assert (E : initialized (decoderWorker r) = true) by (vm_compute; reflexivity).
  rewrite E in H. rewrite E. exact H.
Defined.

(** C7, where the code departs from it --- ['init'] and a successful
    load, then ['reset'], then ['configure'] with gain 1.5.  Whether the
    reload is still pending ([suspended] is 1) or has been rejected
    ([decoder-error] posted, nothing suspended), the worker is not ready,
    yet the guard of [configure] passes on the handle 16 that [reset] has
    just destroyed, and the control primitive is called on it (request
    4034, value 384): the call is not a silent no-op. *)
Theorem configure_runs_during_reset :
  let r := Mock.ready [] false in
  let configure_it := Deliver (configure_cmd (Some Mock.gain_1_5)) in
  let rejection := Throw (Error "Failed to fetch dynamically imported module") in
  let pending := Mock.after [Deliver reset_cmd; configure_it] r in
  let rejected := Mock.after [Deliver reset_cmd; Settle rejection; configure_it] r in
  let released := [Call_opus_decoder_destroy 0 16; Call_free 0 80; Call_free 0 4080] in
  (run [Deliver reset_cmd; configure_it] r = Some pending /\
   suspended pending = 1%nat /\
   outbox pending = outbox r /\
   native_calls pending = native_calls r ++ released ++
     [Call_opus_decoder_ctl 0 16 4034 (number_of_Z 384)])
  /\
  (run [Deliver reset_cmd; Settle rejection; configure_it] r = Some rejected /\
   suspended rejected = 0%nat /\
   outbox rejected = outbox r ++
     [decoder_error "Failed to fetch dynamically imported module"] /\
   native_calls rejected = native_calls r ++ released ++
     [Call_opus_decoder_ctl 0 16 4034 (number_of_Z 384)]).
Proof.
  split.
  - split; [apply run_after; vm_compute; reflexivity|]. vm_compute. repeat split.
  - split; [apply run_after; vm_compute; reflexivity|]. vm_compute. repeat split.
Qed.

(** ** Decoding *)

Lemma decode_failure_is_contained_witness :
  let r := Mock.ready [-4; 2] false in
  let m := Mock.module_of r in
  let opusData := Mock.packet 2 in
  let i' := snd (native_decode (decoderWorker r) m opusData) in
  (initialized (decoderWorker r) = true /\
   wasmModule (decoderWorker r) = Some m /\
   opusData <> [] /\
   input_fits (decoderWorker r) m opusData = true /\
   native_decode (decoderWorker r) m opusData = (Normal (-4), i') /\
   -4 < 0) /\
  exists r1 r2 timestamp decodeTime,
    onmessage (decode_cmd (Some opusData)) r = (Normal tt, r1) /\
    outbox r1 = outbox r ++ [decode_error "Opus decode failed: -4"] /\
    decoder (decoderWorker r1) = decoder (decoderWorker r) /\
    initialized (decoderWorker r1) = true /\
    onmessage (decode_cmd (Some opusData)) r1 = (Normal tt, r2) /\
    outbox r2 = outbox r1 ++
      [decoded_audio [1; 2] timestamp (Some decodeTime) (Some 2) None].
Proof.
  intros r m opusData i'.
  assert (H1 : initialized (decoderWorker r) = true) by (vm_compute; reflexivity).
  assert (H2 : wasmModule (decoderWorker r) = Some m)
    by (apply module_of_some; vm_compute; reflexivity).
  assert (H3 : opusData <> []) by discriminate.
  assert (H4 : input_fits (decoderWorker r) m opusData = true) by (vm_compute; reflexivity).
  assert (H5 : native_decode (decoderWorker r) m opusData = (Normal (-4), i'))
    by (apply pair_from_fst; vm_compute; reflexivity).
  assert (H6 : -4 < 0) by lia.
  split; [repeat split; assumption|].
  destruct (decode_failure_is_contained r m opusData (-4) i' H1 H2 H3 H4 H5 H6)
    as (r1 & _ & Hon & Hout & Hd & Hib & Hob & Hm1 & Hi1 & _ & Hnext).
  set (m' := {| module_id := module_id m; instance := i' |}) in *.
  assert (Hfst : fst (native_decode (decoderWorker r1) m' opusData) = Normal 2).
  { unfold native_decode, staged. rewrite Hd, Hib, Hob. vm_compute. reflexivity. }
  assert (Hfit : input_fits (decoderWorker r1) m' opusData = true).
  { unfold input_fits. rewrite Hib. vm_compute. reflexivity. }
  assert (Hview : view_fits 4 (HEAP (snd (native_decode (decoderWorker r1) m' opusData)))
                    (ToNumber (outputBuffer (decoderWorker r1))) 2 = true).
  { unfold native_decode, staged. rewrite Hd, Hib, Hob. vm_compute. reflexivity. }
  assert (Hread : read_f32 (HEAP (snd (native_decode (decoderWorker r1) m' opusData)))
                    {| v_offset := ToNumber (outputBuffer (decoderWorker r1)); v_length := 2 |}
                  = [1; 2]).
  { unfold native_decode, staged. rewrite Hd, Hib, Hob. vm_compute. reflexivity. }
  destruct (Hnext opusData 2 _ H3 Hfit (pair_from_fst _ _ Hfst) ltac:(lia) Hview)
    as (r2 & timestamp & decodeTime & Hon2 & Hout2 & _).
  rewrite Hread in Hout2.
  exists r1, r2, timestamp, decodeTime. repeat split; assumption.
Defined.

Lemma decode_result_is_copied_witness :
  let r := Mock.ready [3] false in
  let opusData := Mock.packet 200 in
  let r' := snd (decode opusData r) in
  (@respects_frame_size Mock.Engine Mock.libopus /\
   decode opusData r = (Normal [1; 2; 3], r')) /\
  exists m (samplesDecoded : Z) (i' : Inst Mock.Engine),
    initialized (decoderWorker r) = true /\
    wasmModule (decoderWorker r) = Some m /\
    native_decode (decoderWorker r) m opusData = (Normal samplesDecoded, i') /\
    0 <= samplesDecoded <= 5760 /\
    length [1; 2; 3] = Z.to_nat samplesDecoded /\
    (forall k, (k < length [1; 2; 3])%nat ->
       nth k [1; 2; 3] f32_zero =
         get_f32 (HEAP i') (ToNumber (outputBuffer (decoderWorker r)) + 4 * Z.of_nat k) /\
       4 * Z.of_nat k + 4 <= 4 * maxFrameSize) /\
    wasmModule (decoderWorker r') = Some {| module_id := module_id m; instance := i' |} /\
    native_calls r' = native_calls r ++ [decode_entry (decoderWorker r) m opusData].
Proof.
  intros r opusData r'.
  assert (Hb : @respects_frame_size Mock.Engine Mock.libopus).
  { intros st data len pcm frame_size fec i n i'. cbn. unfold Mock.decode_float.
    intros [= <- _]. lia. }
  assert (Hd : decode opusData r = (Normal [1; 2; 3], r'))
    by (apply pair_from_fst; vm_compute; reflexivity).
  split; [split; assumption|].
  exact (decode_result_is_copied r opusData [1; 2; 3] r' Hb Hd).
Defined.

(** C9, where it fails --- a payload of 65536 bytes does not fit in the
    64 KiB of the mock's memory from the input pointer 80 on: [decode]
    rejects it with a RangeError before anything is staged or called, and
    the ['decode'] message posts a [decode-error]. *)
Lemma oversized_payload_is_rejected :
  let r := Mock.ready [2] false in
  let opusData := Mock.packet (Z.to_nat 65536) in
  initialized (decoderWorker r) = true /\
  opusData <> [] /\
  fst (decode opusData r) = Throw (RangeError "Invalid typed array length: 65536") /\
  native_calls (snd (decode opusData r)) = native_calls r /\
  outbox (snd (onmessage (decode_cmd (Some opusData)) r))
    = outbox r ++ [decode_error "Invalid typed array length: 65536"].
Proof. split; [|split; [discriminate|]]; vm_compute; repeat split. Qed.

Lemma decode_stages_whole_payload_witness :
  let r := Mock.ready [2] false in
  let m := Mock.module_of r in
  let opusData := Mock.packet 4001 in
  let w := decoderWorker r in
  (initialized w = true /\ wasmModule w = Some m) /\
  (forall k, (k < length opusData)%nat ->
     cell (HEAP (staged w m opusData)) (ToNumber (inputBuffer w) + Z.of_nat k)
       = nth k opusData x00) /\
  native_calls (snd (decode opusData r)) = native_calls r ++
    [Call_opus_decode_float (module_id m) (ToNumber (decoder w))
       (ToNumber (inputBuffer w)) (Z.of_nat (length opusData))
       (ToNumber (outputBuffer w)) 5760 0] /\
  wasmModule (decoderWorker (snd (decode opusData r))) =
    Some {| module_id := module_id m;
            instance := snd (native_decode w m opusData) |}.
Proof.
  intros r m opusData w.
  assert (H1 : initialized w = true) by (vm_compute; reflexivity).
  assert (H2 : wasmModule w = Some m) by (apply module_of_some; vm_compute; reflexivity).
  split; [split; assumption|].
  pose proof (decode_stages_whole_payload r m opusData H1 H2) as H. cbv zeta in H.
  assert (E : input_fits (decoderWorker r) m opusData = true) by (vm_compute; reflexivity).
  rewrite E in H. exact H.
Defined.

(** ** Initializing again *)

Lemma init_again_overwrites_witness :
  let r := Mock.ready [] false in
  let i := Mock.loaded 0 [] false in
  let c := creation i in
  let k := instantiated r in
  let made := [Call_malloc k 4; Call_opus_decoder_create k 48000 1 (c_errorPtr c);
               Call_free k (c_errorPtr c); Call_malloc k 4000; Call_malloc k 23040] in
  (initialized (decoderWorker r) = true /\ c_errorCode (creation i) = 0) /\
  exists r1 r2,
    onmessage init r = (Normal tt, r1) /\
    decoderWorker r1 = decoderWorker r /\
    suspended r1 = S (suspended r) /\
    outbox r1 = outbox r /\
    native_calls r1 = native_calls r /\
    step (Settle (Normal i)) r1 = Some r2 /\
    decoderWorker r2 =
      {| decoder := Some (c_handle c);
         wasmModule := Some {| module_id := k; instance := c_allocated c |};
         inputBuffer := Some (c_inputBuffer c);
         outputBuffer := Some (c_outputBuffer c) |} /\
    outbox r2 = outbox r ++ [decoder_ready] /\
    native_calls r2 = native_calls r ++ made /\
    filter is_destroy_call made = [] /\
    filter is_free_call made = [Call_free k (c_errorPtr c)] /\
    (numbered r -> forall m, wasmModule (decoderWorker r) = Some m ->
       Forall (fun entry => call_module entry <> module_id m) made).
Proof.
  intros r i c k made.
  assert (H : c_errorCode (creation i) = 0) by (vm_compute; reflexivity).
  split; [split; [vm_compute; reflexivity|exact H]|].
  exact (init_again_overwrites r i H).
Defined.

(** The second ['init'] on the mock: the first module (number 0) gets no
    call after its own initialization, and its handle 16 and buffers 80
    and 4080 are neither destroyed nor freed. *)
Example init_again_on_the_mock :
  let r := Mock.ready [] false in
  let r' := Mock.after [Deliver init; Settle (Normal (Mock.loaded 0 [] false))] r in
  initialized (decoderWorker r) = true /\
  native_calls r =
    [Call_malloc 0 4; Call_opus_decoder_create 0 48000 1 8; Call_free 0 8;
     Call_malloc 0 4000; Call_malloc 0 23040] /\
  native_calls r' = native_calls r ++
    [Call_malloc 1 4; Call_opus_decoder_create 1 48000 1 8; Call_free 1 8;
     Call_malloc 1 4000; Call_malloc 1 23040] /\
  option_map module_id (wasmModule (decoderWorker r')) = Some 1%nat /\
  outbox r' = [decoder_ready; decoder_ready].
Proof. vm_compute. repeat split. Qed.

(** ** Further properties, on the mock *)

Lemma failed_create_allocates_nothing_witness :
  let r := snd (onmessage init (start Mock.clock)) in
  let i := Mock.loaded (-7) [] false in
  let r' := Mock.after [Settle (Normal i)] r in
  (c_errorCode (creation i) <> 0 /\ step (Settle (Normal i)) r = Some r') /\
  outbox r' = outbox r ++ [decoder_error "Opus decoder creation failed: -7"] /\
  native_calls r' = native_calls r ++
    [Call_malloc 0 4; Call_opus_decoder_create 0 48000 1 8; Call_free 0 8] /\
  decoder (decoderWorker r') = Some 0 /\
  option_map module_id (wasmModule (decoderWorker r')) = Some 0%nat /\
  inputBuffer (decoderWorker r') = inputBuffer (decoderWorker r) /\
  outputBuffer (decoderWorker r') = outputBuffer (decoderWorker r) /\
  suspended r = S (suspended r').
Proof.
  intros r i r'.
  assert (H1 : c_errorCode (creation i) <> 0) by (vm_compute; discriminate).
  assert (H2 : step (Settle (Normal i)) r = Some r')
    by (apply step_after; vm_compute; reflexivity).
  split; [split; assumption|].
  exact (failed_create_allocates_nothing r r' i H1 H2).
Defined.

Lemma reset_then_rejected_load_witness :
  let r := Mock.ready [] false in
  let m := Mock.module_of r in
  let e := Error "Failed to fetch dynamically imported module" in
  (initialized (decoderWorker r) = true /\ wasmModule (decoderWorker r) = Some m) /\
  exists r',
    run [Deliver reset_cmd; Settle (Throw e)] r = Some r' /\
    outbox r' = outbox r ++ [decoder_error (message e)] /\
    suspended r' = suspended r /\
    native_calls r' = native_calls r ++
      [Call_opus_decoder_destroy (module_id m) (ToNumber (decoder (decoderWorker r)));
       Call_free (module_id m) (ToNumber (inputBuffer (decoderWorker r)));
       Call_free (module_id m) (ToNumber (outputBuffer (decoderWorker r)))] /\
    decoder (decoderWorker r') = decoder (decoderWorker r) /\
    inputBuffer (decoderWorker r') = inputBuffer (decoderWorker r) /\
    outputBuffer (decoderWorker r') = outputBuffer (decoderWorker r) /\
    initialized (decoderWorker r') = true.
Proof.
  intros r m e.
  assert (H1 : initialized (decoderWorker r) = true) by (vm_compute; reflexivity).
  assert (H2 : wasmModule (decoderWorker r) = Some m)
    by (apply module_of_some; vm_compute; reflexivity).
  split; [split; assumption|].
  exact (reset_then_rejected_load r m e H1 H2).
Defined.

Lemma configure_without_gain_witness :
  let r := Mock.ready [] false in
  initialized (decoderWorker r) = true /\
  configure (Some {| gain := None |}) r = (Normal tt, r) /\
  fst (configure None r) = Normal tt /\
  length (console (snd (configure None r))) = S (length (console r)) /\
  native_calls (snd (configure None r)) = native_calls r /\
  outbox (snd (configure None r)) = outbox r /\
  decoderWorker (snd (configure None r)) = decoderWorker r.
Proof.
  intros r.
  assert (H1 : initialized (decoderWorker r) = true) by (vm_compute; reflexivity).
  split; [exact H1|]. exact (configure_without_gain r H1).
Defined.

Lemma mock_respects_frame_size : @respects_frame_size Mock.Engine Mock.libopus.
Proof.
  intros st data len pcm frame_size fec i n i'. cbn. unfold Mock.decode_float.
  intros [= <- _]. lia.
Defined.

Lemma posted_audio_is_well_shaped_witness :
  let r := start Mock.clock in
  let jobs := [Deliver init; Settle (Normal (Mock.loaded 0 [3; -4] false));
               Deliver (decode_cmd (Some (Mock.packet 2)));
               Deliver (decode_cmd (Some (Mock.packet 2)));
               Deliver (decode_cmd None); Deliver destroy_cmd;
               Deliver (decode_cmd (Some (Mock.packet 2)))] in
  let r' := Mock.after jobs r in
  (@respects_frame_size Mock.Engine Mock.libopus /\
   Forall audio_shape (outbox r) /\ run jobs r = Some r') /\
  Forall audio_shape (outbox r').
Proof.
  intros r jobs r'.
  assert (H2 : Forall audio_shape (outbox r)) by constructor.
  assert (H3 : run jobs r = Some r') by (apply run_after; vm_compute; reflexivity).
  split; [split; [exact mock_respects_frame_size|split; [exact H2|exact H3]]|].
  exact (posted_audio_is_well_shaped jobs r r' mock_respects_frame_size H2 H3).
Defined.

Lemma outbox_grows_by_posting_jobs_witness :
  let r := start Mock.clock in
  let jobs := [Deliver init; Deliver (configure_cmd (Some Mock.gain_1_5));
               Settle (Normal (Mock.loaded 0 [3; -4] false));
               Deliver (decode_cmd (Some (Mock.packet 2)));
               Deliver (decode_cmd (Some (Mock.packet 2)));
               Deliver reset_cmd; Deliver (decode_cmd None);
               Settle (Throw (Error "Failed to fetch dynamically imported module"));
               Deliver destroy_cmd; Deliver (other_cmd "ping")] in
  let r' := Mock.after jobs r in
  run jobs r = Some r' /\
  exists added, outbox r' = outbox r ++ added /\ length added = 6%nat.
Proof.
  intros r jobs r'.
  assert (H : run jobs r = Some r') by (apply run_after; vm_compute; reflexivity).
  split; [exact H|]. exact (outbox_grows_by_posting_jobs jobs r r' H).
Defined.

Lemma destroyed_worker_is_inert_witness :
  let r := Mock.ready [2] false in
  let cmds := [decode_cmd (Some (Mock.packet 2)); reset_cmd;
               configure_cmd (Some Mock.gain_1_5); init; destroy_cmd; decode_cmd None] in
  let r' := Mock.after (Deliver destroy_cmd :: map Deliver cmds) r in
  run (Deliver destroy_cmd :: map Deliver cmds) r = Some r' /\
  let r1 := snd (onmessage destroy_cmd r) in
  initialized (decoderWorker r') = false /\
  decoderWorker r' = decoderWorker r1 /\
  native_calls r' = native_calls r1 /\
  suspended r' = (suspended r + 1)%nat.
Proof.
  intros r cmds r'.
  assert (H : run (Deliver destroy_cmd :: map Deliver cmds) r = Some r')
    by (apply run_after; vm_compute; reflexivity).
  split; [exact H|]. exact (destroyed_worker_is_inert r cmds r' H).
Defined.

Lemma destroy_releases_what_initialize_acquired_witness :
  let r := snd (onmessage init (start Mock.clock)) in
  let i := Mock.loaded 0 [] false in
  let r1 := Mock.after [Settle (Normal i)] r in
  (c_errorCode (creation i) = 0 /\ c_handle (creation i) <> 0 /\
   step (Settle (Normal i)) r = Some r1) /\
  exists r2,
    onmessage destroy_cmd r1 = (Normal tt, r2) /\
    native_calls r2 = native_calls r ++
      [Call_malloc 0 4; Call_opus_decoder_create 0 48000 1 8;
       Call_free 0 8; Call_malloc 0 4000; Call_malloc 0 23040;
       Call_opus_decoder_destroy 0 16; Call_free 0 80; Call_free 0 4080] /\
    outbox r2 = outbox r ++ [decoder_ready; destroyed] /\
    initialized (decoderWorker r2) = false.
Proof.
  intros r i r1.
  assert (H1 : c_errorCode (creation i) = 0) by (vm_compute; reflexivity).
  assert (H2 : c_handle (creation i) <> 0) by (vm_compute; discriminate).
  assert (H3 : step (Settle (Normal i)) r = Some r1)
    by (apply step_after; vm_compute; reflexivity).
  split; [split; [exact H1|split; [exact H2|exact H3]]|].
  exact (destroy_releases_what_initialize_acquired r r1 i H1 H2 H3).
Defined.

Lemma reset_recreates_witness :
  let r := Mock.ready [] false in
  let m := Mock.module_of r in
  let i := Mock.loaded 0 [] false in
  (initialized (decoderWorker r) = true /\ wasmModule (decoderWorker r) = Some m /\
   c_errorCode (creation i) = 0) /\
  let c := creation i in
  let k := instantiated r in
  exists r',
    run [Deliver reset_cmd; Settle (Normal i)] r = Some r' /\
    native_calls r' = native_calls r ++
      [Call_opus_decoder_destroy (module_id m) (ToNumber (decoder (decoderWorker r)));
       Call_free (module_id m) (ToNumber (inputBuffer (decoderWorker r)));
       Call_free (module_id m) (ToNumber (outputBuffer (decoderWorker r)));
       Call_malloc k 4; Call_opus_decoder_create k 48000 1 (c_errorPtr c);
       Call_free k (c_errorPtr c); Call_malloc k 4000; Call_malloc k 23040] /\
    decoderWorker r' =
      {| decoder := Some (c_handle c);
         wasmModule := Some {| module_id := k; instance := c_allocated c |};
         inputBuffer := Some (c_inputBuffer c);
         outputBuffer := Some (c_outputBuffer c) |} /\
    outbox r' = outbox r ++ [decoder_ready] /\
    suspended r' = suspended r.
Proof.
  intros r m i.
  assert (H1 : initialized (decoderWorker r) = true) by (vm_compute; reflexivity).
  assert (H2 : wasmModule (decoderWorker r) = Some m)
    by (apply module_of_some; vm_compute; reflexivity).
  assert (H3 : c_errorCode (creation i) = 0) by (vm_compute; reflexivity).
  split; [split; [exact H1|split; [exact H2|exact H3]]|].
  exact (reset_recreates r m i H1 H2 H3).
Defined.

Lemma decodes_reuse_the_buffers_witness :
  let r := Mock.ready [2; -4; 3] false in
  let m := Mock.module_of r in
  let payloads := [Some (Mock.packet 2); None; Some (Mock.packet 3);
                   Some (Mock.packet 4001); Some []] in
  let r' := Mock.after (map (fun data => Deliver (decode_cmd data)) payloads) r in
  (initialized (decoderWorker r) = true /\ wasmModule (decoderWorker r) = Some m /\
   run (map (fun data => Deliver (decode_cmd data)) payloads) r = Some r') /\
  exists made,
    native_calls r' = native_calls r ++ made /\
    Forall (decodes_with (decoderWorker r) m) made /\
    (length made <= length payloads)%nat /\
    decoder (decoderWorker r') = decoder (decoderWorker r) /\
    inputBuffer (decoderWorker r') = inputBuffer (decoderWorker r) /\
    outputBuffer (decoderWorker r') = outputBuffer (decoderWorker r) /\
    initialized (decoderWorker r') = true.
Proof.
  intros r m payloads r'.
  assert (H1 : initialized (decoderWorker r) = true) by (vm_compute; reflexivity).
  assert (H2 : wasmModule (decoderWorker r) = Some m)
    by (apply module_of_some; vm_compute; reflexivity).
  assert (H3 : run (map (fun data => Deliver (decode_cmd data)) payloads) r = Some r')
    by (apply run_after; vm_compute; reflexivity).
  split; [split; [exact H1|split; [exact H2|exact H3]]|].
  exact (decodes_reuse_the_buffers payloads r m r' H1 H2 H3).
Defined.

(** The calls of that stream on the mock: three decodes, for the packets
    of 2, 3 and 4001 bytes; the lost packet and the empty one call
    nothing. *)
Example decode_stream_on_the_mock :
  let r := Mock.ready [2; -4; 3] false in
  let payloads := [Some (Mock.packet 2); None; Some (Mock.packet 3);
                   Some (Mock.packet 4001); Some []] in
  let r' := Mock.after (map (fun data => Deliver (decode_cmd data)) payloads) r in
  native_calls r' = native_calls r ++
    [Call_opus_decode_float 0 16 80 2 4080 5760 0;
     Call_opus_decode_float 0 16 80 3 4080 5760 0;
     Call_opus_decode_float 0 16 80 4001 4080 5760 0] /\
  length (outbox r') = 6%nat.
Proof. vm_compute. repeat split. Qed.

Lemma timestamps_never_decrease_witness :
  let jobs := [Deliver init; Settle (Normal (Mock.loaded 0 [3; -4] false));
               Deliver (decode_cmd (Some (Mock.packet 2)));
               Deliver (decode_cmd (Some (Mock.packet 2)));
               Deliver (decode_cmd None);
               Deliver (decode_cmd (Some (Mock.packet 2)))] in
  let r' := Mock.after jobs (start Mock.clock) in
  (monotone Mock.clock /\ run jobs (start Mock.clock) = Some r') /\
  StronglySorted Z.le (timestamps (outbox r')) /\
  Forall (fun msg => forall d, decodeTime_of msg = Some d -> 0 <= d) (outbox r').
Proof.
  intros jobs r'.
  assert (H1 : monotone Mock.clock) by (intros a b Hab; unfold Mock.clock; lia).
  assert (H2 : run jobs (start Mock.clock) = Some r')
    by (apply run_after; vm_compute; reflexivity).
  split; [split; [exact H1|exact H2]|].
  exact (timestamps_never_decrease Mock.clock jobs r' H1 H2).
Defined.

(** The timestamps of that run on the mock. *)
Example timestamps_on_the_mock :
  let jobs := [Deliver init; Settle (Normal (Mock.loaded 0 [3; -4] false));
               Deliver (decode_cmd (Some (Mock.packet 2)));
               Deliver (decode_cmd (Some (Mock.packet 2)));
               Deliver (decode_cmd None);
               Deliver (decode_cmd (Some (Mock.packet 2)))] in
  let r' := Mock.after jobs (start Mock.clock) in
  timestamps (outbox r') = [30; 50; 80] /\
  map decodeTime_of (outbox r') = [None; Some 10; None; None; Some 10] /\
  console r' = ["Decode error: Opus decode failed: -4"%string].
Proof. vm_compute. repeat split. Qed.
